(** * TOE popper: the periodic self-report scheduler of [toe_popper.py]

    A shallow embedding of the scheduler core (slot clock, work-window gate,
    admission rule, idle debouncer, scheduler loop, appointment committer and
    configuration loading) together with the properties its specification
    states about it.

    Conventions of the embedding.
    - A naive [datetime] is the record of its fields; the calendar date is
      kept as its proleptic Gregorian ordinal ([datetime.toordinal()]), which
      is all the program ever uses of it.  The year range 1..9999 of Python
      datetimes is not modelled: the ordinal is an unbounded integer.
    - Python exceptions are the [Raise] results of the [result] monad.
    - The clock, the calendar, the modal dialog and the state file are
      explicit: clock readings are arguments, the rest lives in [world].
    - [debug] printing is left out: it only adds output on stdout. *)

From Stdlib Require Import ZArith Lia Bool Ascii String List Sorted.
From stdpp Require Import base option list gmap strings fin_maps.

Set Warnings "-register-all,-clear-no-such-hyp".
Local Open Scope Z_scope.

(** ** Exceptions *)

Inductive exn :=
  | KeyError | ValueError | TypeError | AttributeError | ZeroDivisionError
  | ComError.

Inductive result (A : Type) :=
  | Ok (a : A)
  | Raise (e : exn).
Arguments Ok {A} a.
Arguments Raise {A} e.

#[global] Instance result_ret : MRet result := fun A a => Ok a.
#[global] Instance result_bind : MBind result := fun A B f m =>
  match m with Ok a => f a | Raise e => Raise e end.

(** ** Naive datetimes and timedeltas *)

Record datetime := mk_datetime {
  ordinal : Z;       (* date, as datetime.toordinal() *)
  hour : Z;
  minute : Z;
  second : Z;
  microsecond : Z
}.

(** The invariant every Python datetime satisfies by construction. *)
Definition wf_datetime (d : datetime) : Prop :=
  0 <= hour d < 24 /\ 0 <= minute d < 60 /\ 0 <= second d < 60 /\
  0 <= microsecond d < 1000000.

(** A [timedelta], in microseconds. *)
Definition timedelta := Z.

Definition timedelta_minutes (m : Z) : timedelta := m * 60000000.

(** Microseconds since the start of ordinal day 0. *)
Definition to_us (d : datetime) : Z :=
  (((ordinal d * 24 + hour d) * 60 + minute d) * 60 + second d) * 1000000
  + microsecond d.

Definition of_us (x : Z) : datetime :=
  {| ordinal := x / 86400000000;
     hour := (x mod 86400000000) / 3600000000;
     minute := (x mod 3600000000) / 60000000;
     second := (x mod 60000000) / 1000000;
     microsecond := x mod 1000000 |}.

(** [d + timedelta] and [a - b] on naive datetimes. *)
Definition dt_add (d : datetime) (delta : timedelta) : datetime :=
  of_us (to_us d + delta).
Definition dt_sub (a b : datetime) : timedelta := to_us a - to_us b.

(** Comparison of naive datetimes (field-wise lexicographic in Python, which
    on well-formed values is the order of [to_us]). *)
Definition dt_ltb (a b : datetime) : bool := to_us a <? to_us b.
Definition dt_leb (a b : datetime) : bool := to_us a <=? to_us b.

(** [datetime.replace(hour=, minute=, second=, microsecond=)]: absent
    arguments keep the field; the new value is validated. *)
Definition replace (d : datetime) (h m s us : option Z) : result datetime :=
  let h' := default (hour d) h in
  let m' := default (minute d) m in
  let s' := default (second d) s in
  let us' := default (microsecond d) us in
  if (0 <=? h') && (h' <? 24) && (0 <=? m') && (m' <? 60)
     && (0 <=? s') && (s' <? 60) && (0 <=? us') && (us' <? 1000000)
  then Ok {| ordinal := ordinal d; hour := h'; minute := m';
             second := s'; microsecond := us' |}
  else Raise ValueError.

(** ** SlotClock *)

(** [current_slot(slot_minutes)]; [n] is the reading of [now_local()]. *)
Definition current_slot (n : datetime) (slot_minutes : Z)
  : result (datetime * datetime) :=
  minute' ← (if slot_minutes =? 30
             then Ok (if minute n <? 30 then 0 else 30)
             else if slot_minutes =? 0 then Raise ZeroDivisionError
             else Ok ((minute n / slot_minutes) * slot_minutes));
  start ← replace n None (Some minute') (Some 0) (Some 0);
  mret (start, dt_add start (timedelta_minutes slot_minutes)).

(** ** Python strings

    Strings are sequences of ASCII characters; [str.strip] removes the
    characters Python's [str.isspace] accepts in that range and
    [str.lower] maps [A-Z] to [a-z]. *)

Definition isspace (c : ascii) : bool :=
  let n := Z.of_N (N_of_ascii c) in
  ((9 <=? n) && (n <=? 13)) || ((28 <=? n) && (n <=? 32)).

Fixpoint lstrip (s : string) : string :=
  match s with
  | EmptyString => EmptyString
  | String c s' => if isspace c then lstrip s' else s
  end.

Fixpoint rstrip (s : string) : string :=
  match s with
  | EmptyString => EmptyString
  | String c s' =>
      match rstrip s' with
      | EmptyString => if isspace c then EmptyString else String c EmptyString
      | t => String c t
      end
  end.

Definition strip (s : string) : string := rstrip (lstrip s).

Definition no_leading_space (s : string) : Prop :=
  match s with
  | EmptyString => True
  | String c _ => isspace c = false
  end.

Definition lower_char (c : ascii) : ascii :=
  let n := N_of_ascii c in
  if ((65 <=? n) && (n <=? 90))%N then ascii_of_N (n + 32) else c.

Fixpoint lower (s : string) : string :=
  match s with
  | EmptyString => EmptyString
  | String c s' => String (lower_char c) (lower s')
  end.

Definition str_eqb (a b : string) : bool := bool_decide (a = b).

(** [sub in s] *)
Fixpoint str_contains (sub s : string) : bool :=
  String.prefix sub s ||
  match s with
  | EmptyString => false
  | String _ s' => str_contains sub s'
  end.

(** [s.split(sep)] for a one-character separator. *)
Fixpoint split_on (sep : ascii) (s : string) : list string :=
  match s with
  | EmptyString => [EmptyString]
  | String c s' =>
      if Ascii.eqb c sep then EmptyString :: split_on sep s'
      else match split_on sep s' with
           | [] => [String c EmptyString]
           | p :: ps => String c p :: ps
           end
  end.

Definition digit_of (c : ascii) : option Z :=
  let n := Z.of_N (N_of_ascii c) in
  if (48 <=? n) && (n <=? 57) then Some (n - 48) else None.

Fixpoint digits_value (s : string) (acc : Z) : option Z :=
  match s with
  | EmptyString => Some acc
  | String c s' =>
      match digit_of c with
      | Some d => digits_value s' (acc * 10 + d)
      | None => None
      end
  end.

(** [int(s)] on a string: surrounding whitespace, an optional sign and a
    non-empty run of decimal digits (digit separators are not modelled). *)
Definition int_of_str (s : string) : result Z :=
  let body (t : string) : result Z :=
    match t with
    | EmptyString => Raise ValueError
    | _ => match digits_value t 0 with
           | Some v => Ok v
           | None => Raise ValueError
           end
    end in
  match strip s with
  | String "-"%char t => v ← body t; mret (- v)
  | String "+"%char t => body t
  | t => body t
  end.

(** ** JSON values and Python dictionaries *)

Inductive json :=
  | JNull
  | JBool (b : bool)
  | JNum (n : Z)
  | JStr (s : string)
  | JArr (l : list json)
  | JObj (m : gmap string json).

(** Python truthiness ([if cfg:], [x or default]). *)
Definition truthy (v : json) : bool :=
  match v with
  | JNull => false
  | JBool b => b
  | JNum n => negb (n =? 0)
  | JStr s => negb (str_eqb s "")
  | JArr l => match l with [] => false | _ => true end
  | JObj m => negb (bool_decide (m = ∅))
  end.

(** [d[k]], [d.get(k, default)], [d.get(k)] and [d.items()]; only a
    dictionary has them. *)
Definition getitem (d : json) (k : string) : result json :=
  match d with
  | JObj m => match m !! k with Some v => Ok v | None => Raise KeyError end
  | _ => Raise TypeError
  end.

Definition get_default (d : json) (k : string) (dflt : json) : result json :=
  match d with
  | JObj m => Ok (default dflt (m !! k))
  | _ => Raise AttributeError
  end.

Definition get (d : json) (k : string) : result json := get_default d k JNull.

Definition items (d : json) : result (gmap string json) :=
  match d with
  | JObj m => Ok m
  | _ => Raise AttributeError
  end.

(** [int(v)] on a value read from the configuration. *)
Definition int_of_json (v : json) : result Z :=
  match v with
  | JNum n => Ok n
  | JBool b => Ok (if b then 1 else 0)
  | JStr s => int_of_str s
  | _ => Raise TypeError
  end.

(** ** Config & State *)

Definition DEFAULTS : gmap string json :=
  {[ "work_window" := JObj {[ "start" := JStr "09:00"; "end" := JStr "17:00";
                              "slot_minutes" := JNum 30 ]};
     "prompt_rules" := JObj {[ "focus_title" := JStr "Focus Sprint";
                               "focus_match" := JStr "equals_ci";
                               "skip_if_any_event" := JBool true ]};
     "ui" := JObj {[ "remember_last" := JBool true; "snooze_minutes" := JNum 10 ]};
     "outlook" := JObj {[ "tz_id" := JNull ]};
     "categories" := JObj ∅ ]}.

(** What [json.loads(p.read_text())] makes of an existing file. *)
Inductive file :=
  | Unparseable
  | Parsed (v : json).

(** The files the loader can see, by path. *)
Definition filesystem := string -> option file.

Inductive load_error :=
  | NotFound (p : string)
  | FailedToParse (p : string).

Definition _try_load_json (fs : filesystem) (p : string)
  : option json * option load_error :=
  match fs p with
  | None => (None, Some (NotFound p))
  | Some Unparseable => (None, Some (FailedToParse p))
  | Some (Parsed v) => (Some v, None)
  end.

(** [if cfg:] on the first component of [_try_load_json]'s result. *)
Definition loaded (cfg : option json) : option json :=
  match cfg with
  | Some v => if truthy v then Some v else None
  | None => None
  end.

Definition _merge_defaults (over : json) : result json :=
  let cfg := DEFAULTS in      (* json.loads(json.dumps(DEFAULTS)) *)
  over_items ← items (if truthy over then over else JObj ∅);
  let cfg := map_fold (fun k v cfg => <[k:=v]> cfg) cfg over_items in
  let cfg := match cfg !! "categories" with
             | Some _ => cfg
             | None => <["categories":=JObj ∅]> cfg
             end in
  match cfg !! "outlook" with
  | None => Ok (JObj (<["outlook":=JObj {[ "tz_id" := JNull ]}]> cfg))
  | Some (JObj o) =>
      match o !! "tz_id" with
      | Some _ => Ok (JObj cfg)
      | None => Ok (JObj (<["outlook":=JObj (<["tz_id":=JNull]> o)]> cfg))
      end
  | Some _ => Raise AttributeError
  end.

(** [load_config(cli_path)]; [here] and [cwd] are the paths of
    [config.json] next to the script and in the working directory. *)
Definition load_config (fs : filesystem) (here cwd : string)
    (cli_path : option string) : result json :=
  let try_cli :=
    match cli_path with
    | Some p => if str_eqb p "" then None else loaded (fst (_try_load_json fs p))
    | None => None
    end in
  match try_cli with
  | Some cfg => _merge_defaults cfg
  | None =>
    match loaded (fst (_try_load_json fs here)) with
    | Some cfg => _merge_defaults cfg
    | None =>
      match loaded (fst (_try_load_json fs cwd)) with
      | Some cfg => _merge_defaults cfg
      | None => _merge_defaults (JObj ∅)
      end
    end
  end.

(** ** Time helpers *)

(** [parse_hhmm(s)], on a value read from the configuration. *)
Definition parse_hhmm (v : json) : result (Z * Z) :=
  match v with
  | JStr s =>
      match split_on ":" s with
      | [h; m] => h' ← int_of_str h; m' ← int_of_str m; mret (h', m')
      | _ => Raise ValueError
      end
  | _ => Raise AttributeError
  end.

Definition within_work_window (cfg : json) (t : datetime) : result bool :=
  ww ← getitem cfg "work_window";
  '(sh, sm) ← (getitem ww "start" ≫= parse_hhmm);
  ww ← getitem cfg "work_window";
  '(eh, em) ← (getitem ww "end" ≫= parse_hhmm);
  s ← replace t (Some sh) (Some sm) (Some 0) (Some 0);
  e ← replace t (Some eh) (Some em) (Some 0) (Some 0);
  mret (dt_leb s t && dt_ltb t e).

(** [int(cfg["work_window"]["slot_minutes"])] *)
Definition slot_minutes_of (cfg : json) : result Z :=
  ww ← getitem cfg "work_window";
  v ← getitem ww "slot_minutes";
  int_of_json v.

(** [compute_slot_for_time(cfg, fake_hhmm, exact_now)]; [now] is the reading
    of [now_local()]. *)
Definition compute_slot_for_time (now : datetime) (cfg : json)
    (fake_hhmm : option string) (exact_now : bool)
  : result (datetime * datetime) :=
  mins ← slot_minutes_of cfg;
  if exact_now then
    t ← replace now None None (Some 0) (Some 0);
    mret (t, dt_add t (timedelta_minutes mins))
  else
    match fake_hhmm with
    | None => current_slot now mins
    | Some hhmm =>
      if str_eqb hhmm "" then current_slot now mins else
      '(hh, mm) ← match split_on ":" hhmm with
                  | [h; m] => h' ← int_of_str h; m' ← int_of_str m; mret (h', m')
                  | _ => Raise ValueError
                  end;
      t ← replace now (Some hh) (Some mm) (Some 0) (Some 0);
      minute' ← (if mins =? 0 then Raise ZeroDivisionError
                 else Ok ((minute t / mins) * mins));
      start ← replace t None (Some minute') (Some 0) (Some 0);
      mret (start, dt_add start (timedelta_minutes mins))
    end.

(** ** Time zones: fixed-offset [tzinfo] objects and aware datetimes *)

(** A [datetime.timezone]: its fixed offset from UTC. *)
Definition timezone := timedelta.
Definition timezone_utc : timezone := 0.

Record aware := mk_aware { wall : datetime; tzinfo : timezone }.

(** [a.astimezone(tz)] for a fixed-offset target. *)
Definition astimezone (a : aware) (tz : timezone) : aware :=
  {| wall := dt_add (wall a) (tz - tzinfo a); tzinfo := tz |}.

(** The host's time-zone rule: the UTC offset in force at a local
    wall-clock time. *)
Definition tzrule := datetime -> timedelta.

(** [_local_tz()]: [datetime.now().astimezone().tzinfo], the fixed-offset
    zone in force at the reading [now] of the clock. *)
Definition _local_tz (host : tzrule) (now : datetime) : timezone := host now.

Definition _to_utc_from_local_wall (host : tzrule) (now : datetime)
    (dt_local_naive : datetime) : aware :=
  let aware_local := {| wall := dt_local_naive; tzinfo := _local_tz host now |} in
  astimezone aware_local timezone_utc.

Definition _local_and_utc (host : tzrule) (now : datetime)
    (dt_naive_local : datetime) : aware * aware :=
  let aware_local := {| wall := dt_naive_local; tzinfo := _local_tz host now |} in
  (aware_local, astimezone aware_local timezone_utc).

(** ** The calendar, the dialog and the state file *)

(** An entry of [calendar.Items] with [IncludeRecurrences = True]: single
    appointments and the occurrences of recurring series. *)
Record item := mk_item {
  item_id : nat;
  Subject : option string;
  Start : datetime;
  End_ : datetime;
  AllDayEvent : bool;
  BusyStatus : option Z;
  series : option nat          (* the recurring series it is an occurrence of *)
}.

(** The dictionaries [events_in_range] returns. *)
Record event := mk_event {
  ev_Subject : string;
  ev_Start : datetime;
  ev_End : datetime;
  ev_BusyStatus : option Z
}.

(** [ol_time_str(dt)]: the text ["%m/%d/%Y %H:%M"] names the minute of
    [dt]; it is kept as that minute. *)
Definition ol_time_str (dt : datetime) : datetime :=
  {| ordinal := ordinal dt; hour := hour dt; minute := minute dt;
     second := 0; microsecond := 0 |}.

(** A filter handed to [Items.Restrict]:
    ["[Start] < 'start_before' AND [End] > 'end_after'"], with or without
    ["AND [AllDayEvent] = False"]. *)
Record restriction := mk_restriction {
  start_before : datetime;
  end_after : datetime;
  not_all_day : bool
}.

Definition satisfies (r : restriction) (itm : item) : bool :=
  dt_ltb (Start itm) (start_before r) && dt_ltb (end_after r) (End_ itm)
  && (if not_all_day r then negb (AllDayEvent itm) else true).

(** What [run_modal_tk] returns. *)
Inductive prompt_result :=
  | Save (text category timecode : string)
  | Skip
  | Snooze.

(** The appointment [create_appointment] fills in and saves. *)
Record appointment := mk_appointment {
  StartUTC : aware;
  EndUTC : aware;
  appt_Subject : string;
  appt_BusyStatus : Z;
  Categories : option json
}.

Inductive effect :=
  | EModal (slot_start slot_end : datetime)
  | EDelete (occ : item)                     (* occ.Delete() went through *)
  | ECreate (appt : appointment)             (* appt.Save() went through *)
  | EStderrDeleteFailed (occ : item)
  | EStderrCreateFailed
  | EPreview (subject : string) (category : option json)
             (start_local end_local start_utc end_utc : aware)
  | EWriteState (st : gmap string json)      (* save_state *)
  | ESleep (seconds : Z).

(** The collaborators' behaviour during one prompt. *)
Record env := mk_env {
  restrict_raises : restriction -> bool;  (* Items.Restrict rejects the filter *)
  delete_raises : item -> bool;           (* occ.Delete() fails *)
  create_raises : bool;                   (* creating or saving the entry fails *)
  modal : prompt_result;                  (* the user's answer *)
  host : tzrule;
  now_start : datetime;   (* clock when the start boundary is converted *)
  now_end : datetime;     (* clock when the end boundary is converted *)
  shown_at : aware -> datetime   (* the local time Outlook gives an instant *)
}.

Record world := mk_world {
  cal_items : list item;             (* occurrences and single appointments *)
  cal_series : list nat;             (* recurring series definitions *)
  state : gmap string json;          (* the [state] dictionary *)
  state_file : option (gmap string json);   (* contents of STATE_PATH *)
  trace : list effect                (* oldest first *)
}.

(** Computations over the world that may raise. *)
Definition M (A : Type) : Type := world -> result A * world.

#[global] Instance M_ret : MRet M := fun A a w => (Ok a, w).
#[global] Instance M_bind : MBind M := fun A B f m w =>
  match m w with
  | (Ok a, w') => f a w'
  | (Raise e, w') => (Raise e, w')
  end.

Definition lift {A} (r : result A) : M A := fun w => (r, w).

(** [try: c except Exception: h] *)
Definition try_except {A} (c : M A) (h : M A) : M A := fun w =>
  match c w with
  | (Ok a, w') => (Ok a, w')
  | (Raise _, w') => h w'
  end.

Definition emit (e : effect) : M unit := fun w =>
  (Ok tt, {| cal_items := cal_items w; cal_series := cal_series w;
             state := state w; state_file := state_file w;
             trace := trace w ++ [e] |}).

Definition set_items (l : list item) : M unit := fun w =>
  (Ok tt, {| cal_items := l; cal_series := cal_series w;
             state := state w; state_file := state_file w;
             trace := trace w |}).

Definition set_state (st : gmap string json) : M unit := fun w =>
  (Ok tt, {| cal_items := cal_items w; cal_series := cal_series w;
             state := st; state_file := state_file w;
             trace := trace w |}).

Definition write_state_file (st : gmap string json) : M unit := fun w =>
  (Ok tt, {| cal_items := cal_items w; cal_series := cal_series w;
             state := state w; state_file := Some st;
             trace := trace w |}).

Definition read_items : M (list item) := fun w => (Ok (cal_items w), w).
Definition read_state : M (gmap string json) := fun w => (Ok (state w), w).

(** ** Outlook *)

(** [items.Restrict(r)] *)
Definition Restrict (E : env) (r : restriction) : M (list item) :=
  if restrict_raises E r then lift (Raise ComError)
  else l ← read_items; mret (filter (fun itm => satisfies r itm = true) l).

(** The query both [events_in_range] and [find_focus_occurrences] start
    with: the three-clause filter, and on failure the two-clause one. *)
Definition restrict_range (E : env) (start end_ : datetime) : M (list item) :=
  try_except
    (Restrict E {| start_before := ol_time_str end_;
                   end_after := ol_time_str start; not_all_day := true |})
    (Restrict E {| start_before := ol_time_str end_;
                   end_after := ol_time_str start; not_all_day := false |}).

Definition str_or_empty (s : option string) : string := default EmptyString s.

(** The body of the loop of [events_in_range]: all-day entries are
    skipped, the others reported with their subject stripped. *)
Definition event_of (itm : item) : option event :=
  if AllDayEvent itm then None
  else Some {| ev_Subject := strip (str_or_empty (Subject itm));
               ev_Start := Start itm; ev_End := End_ itm;
               ev_BusyStatus := BusyStatus itm |}.

Definition events_in_range (E : env) (start end_ : datetime) : M (list event) :=
  restricted ← restrict_range E start end_;
  mret (omap event_of restricted).

Definition json_is_str (v : json) (s : string) : bool :=
  match v with JStr t => str_eqb t s | _ => false end.

(** [x.lower()] on a configuration value: only a string has it. *)
Definition json_lower (v : json) : result string :=
  match v with JStr s => Ok (lower s) | _ => Raise AttributeError end.

Definition _is_focus_title (subject : string) (focus_title mode : json)
  : result bool :=
  let s := strip subject in
  let ft := if truthy focus_title then focus_title else JStr "" in
  if json_is_str mode "equals_ci" then
    f ← json_lower ft; mret (str_eqb (lower s) f)
  else if json_is_str mode "contains_ci" then
    f ← json_lower ft; mret (str_contains f (lower s))
  else mret (json_is_str ft s).

(** The two rule lookups, [rules.get("focus_title", "Focus Sprint")] and
    [rules.get("focus_match", "equals_ci")], followed by the match. *)
Definition rules_match (rules : json) (subject : string) : result bool :=
  ft ← get_default rules "focus_title" (JStr "Focus Sprint");
  mode ← get_default rules "focus_match" (JStr "equals_ci");
  _is_focus_title subject ft mode.

(** The body of the loop of [find_focus_occurrences]: whether the entry
    is appended to [matches]. *)
Definition is_focus_occurrence (rules : json) (itm : item) : bool :=
  if AllDayEvent itm then false
  else match rules_match rules (str_or_empty (Subject itm)) with
       | Ok b => b
       | Raise _ => false       (* except Exception: continue *)
       end.

Definition find_focus_occurrences (E : env) (slot_start slot_end : datetime)
    (cfg : json) : M (list item) :=
  rules ← lift (getitem cfg "prompt_rules");
  restricted ← restrict_range E slot_start slot_end;
  mret (filter (fun itm => is_focus_occurrence rules itm = true) restricted).

(** [occ.Delete()]: removes that entry of the calendar and nothing else. *)
Definition Delete (E : env) (occ : item) : M unit :=
  if delete_raises E occ then lift (Raise ComError)
  else
    l ← read_items;
    set_items (filter (fun itm => item_id itm ≠ item_id occ) l);;
    emit (EDelete occ).

Definition fresh_id (l : list item) : nat :=
  S (foldr (fun itm acc => Nat.max (item_id itm) acc) 0%nat l).

(** [if outlook_category: appt.Categories = outlook_category] *)
Definition categories_of (outlook_category : json) : option json :=
  if truthy outlook_category then Some outlook_category else None.

(** The fields [create_appointment] sets on the new entry: the UTC bounds
    of the slot, the subject, busy (2) and the category. *)
Definition appointment_for (E : env) (slot_start slot_end : datetime)
    (subject : string) (outlook_category : json) : appointment :=
  {| StartUTC := _to_utc_from_local_wall (host E) (now_start E) slot_start;
     EndUTC := _to_utc_from_local_wall (host E) (now_end E) slot_end;
     appt_Subject := subject;
     appt_BusyStatus := 2;
     Categories := categories_of outlook_category |}.

(** [create_appointment]: the saved entry joins the calendar as a single
    appointment.  The code sets [StartUTC] and [EndUTC] only; the [Start]
    and [End] the entry then has are Outlook's, [shown_at]. *)
Definition create_appointment (E : env) (start end_ : datetime)
    (subject : string) (outlook_category : json) : M unit :=
  if create_raises E then lift (Raise ComError)
  else
    let appt := appointment_for E start end_ subject outlook_category in
    l ← read_items;
    set_items (l ++ [ {| item_id := fresh_id l;
                         Subject := Some subject;
                         Start := shown_at E (StartUTC appt);
                         End_ := shown_at E (EndUTC appt);
                         AllDayEvent := false;
                         BusyStatus := Some 2;
                         series := None |} ]);;
    emit (ECreate appt).

(** ** Prompt rules *)

Definition should_prompt (E : env) (cfg : json) (slot_start slot_end : datetime)
  : M bool :=
  evs ← events_in_range E slot_start slot_end;
  match evs with
  | [] => mret true
  | [ev] =>
      rules ← lift (getitem cfg "prompt_rules");
      lift (rules_match rules (ev_Subject ev))
  | _ => mret false
  end.

(** ** The dialog, the preview and the state file *)

Definition run_modal_tk (E : env) (slot_start slot_end : datetime)
  : M prompt_result :=
  emit (EModal slot_start slot_end);; mret (modal E).

Definition save_state (st : gmap string json) : M unit :=
  write_state_file st;; emit (EWriteState st).

Definition _preview_log (E : env) (slot_start slot_end : datetime)
    (subject : string) (outlook_category : json) : M unit :=
  let '(start_local, start_utc) := _local_and_utc (host E) (now_start E) slot_start in
  let '(end_local, end_utc) := _local_and_utc (host E) (now_end E) slot_end in
  emit (EPreview subject (categories_of outlook_category)
          start_local end_local start_utc end_utc).

(** [for occ in focus_occurs: try: occ.Delete() except: print(.., stderr)] *)
Fixpoint delete_all (E : env) (focus_occurs : list item) : M unit :=
  match focus_occurs with
  | [] => mret tt
  | occ :: rest =>
      try_except (Delete E occ) (emit (EStderrDeleteFailed occ));;
      delete_all E rest
  end.

Definition nonempty (s : string) : bool := negb (str_eqb s "").

(** [cats.get(cat, {}).get("outlook_category")] *)
Definition outlook_category_of (cats : json) (cat : string) : result json :=
  c ← get_default cats cat (JObj ∅);
  get c "outlook_category".

(** [cfg.get("ui", {}).get("remember_last", True)] *)
Definition remember_last_of (cfg : json) : result json :=
  ui ← get_default cfg "ui" (JObj ∅);
  get_default ui "remember_last" (JBool true).

(** [int(cfg.get("ui", {}).get("snooze_minutes", 10))] *)
Definition snooze_minutes_of (cfg : json) : result Z :=
  ui ← get_default cfg "ui" (JObj ∅);
  v ← get_default ui "snooze_minutes" (JNum 10);
  int_of_json v.

(** The calendar part of a save: if a Focus Sprint occurrence exists,
    delete that occurrence before creating the new appointment (or, with
    [--preview-only], logging it). *)
Definition commit (E : env) (cfg : json) (slot_start slot_end : datetime)
    (preview_only : bool) (subj : string) (outlook_category : json) : M unit :=
  focus_occurs ← find_focus_occurrences E slot_start slot_end cfg;
  delete_all E focus_occurs;;
  if preview_only then
    _preview_log E slot_start slot_end subj outlook_category
  else
    try_except
      (create_appointment E slot_start slot_end subj outlook_category)
      (emit EStderrCreateFailed).

(** What [prompt_once] does with the dialog's answer. *)
Definition handle_result (E : env) (cfg : json) (slot_start slot_end : datetime)
    (preview_only : bool) (cats : json) (snooze_m : Z) (res : prompt_result)
  : M unit :=
  match res with
  | Save text category timecode =>
      let text := strip text in
      let tcode := strip timecode in
      let cat := strip category in
      (if nonempty text && nonempty tcode then
         let subj := text in
         outlook_category ← lift (outlook_category_of cats cat);
         commit E cfg slot_start slot_end preview_only subj outlook_category
       else mret tt);;
      remember ← lift (remember_last_of cfg);
      if truthy remember then
        st ← read_state;
        let st := <["last_timecode":=JStr tcode]>
                    (<["last_category":=JStr cat]> st) in
        set_state st;;
        save_state st
      else mret tt
  | Snooze =>
      (* time.sleep refuses a negative length *)
      if snooze_m * 60 <? 0 then lift (Raise ValueError)
      else emit (ESleep (snooze_m * 60))
  | Skip => mret tt
  end.

Definition prompt_once (E : env) (cfg : json) (slot_start slot_end : datetime)
    (bypass preview_only : bool) : M unit :=
  (* Enforce work_window unless bypassing. *)
  inside ← (if bypass then mret true
            else lift (within_work_window cfg slot_start));
  if negb inside then mret tt else
  (* Gate rules unless bypass. *)
  allowed ← (if bypass then mret true
             else should_prompt E cfg slot_start slot_end);
  if negb allowed then mret tt else
  (* The modal dialog *)
  cats ← lift (get_default cfg "categories" (JObj ∅));
  snooze_m ← lift (snooze_minutes_of cfg);
  res ← run_modal_tk E slot_start slot_end;
  handle_result E cfg slot_start slot_end preview_only cats snooze_m res.

(** ** CLI & Main *)

(** The one-shot branch of [main] ([--force] / [--force-bypass]). *)
Definition one_shot (E : env) (now : datetime) (cfg : json)
    (at_ : option string) (exact_now force_bypass preview_only : bool) : M unit :=
  '(s, e) ← lift (compute_slot_for_time now cfg at_ exact_now);
  prompt_once E cfg s e force_bypass preview_only.

(** [s.strftime("%Y-%m-%d %H:%M")]: the text names the date, hour and
    minute of [s], and is kept as those. *)
Definition slot_key := (Z * Z * Z)%type.
Definition strftime_key (s : datetime) : slot_key :=
  (ordinal s, hour s, minute s).

Definition IDLE_THRESHOLD_SEC : Z := 60.

(** The loop's own variables. *)
Record sched := mk_sched {
  last_slot_key_prompted : option slot_key;
  was_idle : bool
}.

Definition sched_init : sched :=
  {| last_slot_key_prompted := None; was_idle := false |}.

(** What one turn of the loop reads from outside. *)
Record observation := mk_observation {
  now : datetime;          (* now_local() at the top of the turn *)
  slot_now : datetime;     (* now_local() inside current_slot *)
  idle_ms : Z;             (* get_idle_seconds(), in milliseconds *)
  prompt_raises : bool     (* a prompt_once call of this turn raises *)
}.

Inductive trigger := Boundary | Resume.

#[global] Instance trigger_eq_dec : EqDecision trigger.
Proof. solve_decision. Defined.

(** A call of [prompt_once] by the loop. *)
Record attempt := mk_attempt {
  att_trigger : trigger;
  att_key : slot_key;
  att_start : datetime;
  att_end : datetime
}.

(** The boundary trigger: in the first five seconds of a minute, a slot
    not yet prompted is marked as prompted and [prompt_once] is called. *)
Definition boundary_trigger (now : datetime) (slot_key : slot_key)
    (s e : datetime) (st : sched) : sched * list attempt :=
  if bool_decide (Some slot_key ≠ last_slot_key_prompted st)
     && (second now <? 5)
  then ({| last_slot_key_prompted := Some slot_key; was_idle := was_idle st |},
        [mk_attempt Boundary slot_key s e])
  else (st, []).

(** The re-nag on resume: the idle sample sets [was_idle] above the
    threshold; at or below it a set [was_idle] is cleared and a slot not
    yet prompted is marked as prompted and [prompt_once] is called. *)
Definition resume_trigger (idle_ms : Z) (slot_key : slot_key)
    (s e : datetime) (st : sched) : sched * list attempt :=
  if idle_ms >? IDLE_THRESHOLD_SEC * 1000 then
    ({| last_slot_key_prompted := last_slot_key_prompted st;
        was_idle := true |}, [])
  else if was_idle st then
    if bool_decide (Some slot_key ≠ last_slot_key_prompted st) then
      ({| last_slot_key_prompted := Some slot_key; was_idle := false |},
       [mk_attempt Resume slot_key s e])
    else
      ({| last_slot_key_prompted := last_slot_key_prompted st;
          was_idle := false |}, [])
  else (st, []).

Definition any_call (calls : list attempt) : bool :=
  match calls with [] => false | _ => true end.

(** The body of [while True], up to [time.sleep(1.0)]: the calls of
    [prompt_once] it makes, and the loop variables afterwards, or the
    exception that ends the loop. *)
Definition loop_body (cfg : json) (slot_minutes : Z) (st : sched)
    (o : observation) : list attempt * result sched :=
  match within_work_window cfg (now o) with
  | Raise ex => ([], Raise ex)
  | Ok false => ([], Ok st)
  | Ok true =>
    match current_slot (slot_now o) slot_minutes with
    | Raise ex => ([], Raise ex)
    | Ok (s, e) =>
      let slot_key := strftime_key s in
      let '(st1, calls1) := boundary_trigger (now o) slot_key s e st in
      if any_call calls1 && prompt_raises o then (calls1, Raise ComError) else
      let '(st2, calls2) := resume_trigger (idle_ms o) slot_key s e st1 in
      if any_call calls2 && prompt_raises o
      then (calls1 ++ calls2, Raise ComError)
      else (calls1 ++ calls2, Ok st2)
    end
  end.

(** The loop over the successive turns [obs]. *)
Fixpoint scheduler_loop (cfg : json) (slot_minutes : Z) (st : sched)
    (obs : list observation) : list attempt * result sched :=
  match obs with
  | [] => ([], Ok st)
  | o :: rest =>
      match loop_body cfg slot_minutes st o with
      | (calls, Ok st') =>
          let '(more, r) := scheduler_loop cfg slot_minutes st' rest in
          (calls ++ more, r)
      | (calls, Raise e) => (calls, Raise e)
      end
  end.

(** The loop branch of [main]. *)
Definition main_loop (cfg : json) (obs : list observation)
  : list attempt * result sched :=
  match slot_minutes_of cfg with
  | Raise e => ([], Raise e)
  | Ok slot_minutes => scheduler_loop cfg slot_minutes sched_init obs
  end.

(** Attempts made for one slot, by trigger. *)
Definition attempts_for (k : slot_key) (calls : list attempt) : list attempt :=
  filter (fun a => att_key a = k) calls.
Definition attempts_by (t : trigger) (k : slot_key) (calls : list attempt)
  : list attempt :=
  filter (fun a => att_trigger a = t /\ att_key a = k) calls.

(** ** Sample data *)

(** [datetime(y, m, d, h, mi, s)], with the date turned into its ordinal
    as [datetime.toordinal()] does. *)
Definition is_leap (y : Z) : bool :=
  (y mod 4 =? 0) && (negb (y mod 100 =? 0) || (y mod 400 =? 0)).
Definition days_before_year (y : Z) : Z :=
  let y := y - 1 in y * 365 + y / 4 - y / 100 + y / 400.
Definition days_before_month (y m : Z) : Z :=
  nth (Z.to_nat (m - 1)) [0; 31; 59; 90; 120; 151; 181; 212; 243; 273; 304; 334] 0
  + (if (2 <? m) && is_leap y then 1 else 0).
Definition ymd2ord (y m d : Z) : Z :=
  days_before_year y + days_before_month y m + d.
Definition datetime_of (y mo d h mi s : Z) : datetime :=
  {| ordinal := ymd2ord y mo d; hour := h; minute := mi; second := s;
     microsecond := 0 |}.

(** The configuration [load_config] yields when no file is found. *)
Definition default_cfg : json := JObj DEFAULTS.

(** Monday 2025-03-03, the day of the sample runs. *)
Definition monday (h mi s : Z) : datetime := datetime_of 2025 3 3 h mi s.

Definition focus_sprint_0900 : item :=
  {| item_id := 1; Subject := Some "Focus Sprint";
     Start := monday 9 0 0; End_ := monday 9 30 0;
     AllDayEvent := false; BusyStatus := Some 2; series := Some 7%nat |}.

Definition focus_sprint_0915 : item :=
  {| item_id := 2; Subject := Some " focus sprint ";
     Start := monday 9 15 0; End_ := monday 9 45 0;
     AllDayEvent := false; BusyStatus := Some 2; series := None |}.

Definition standup_0900 : item :=
  {| item_id := 3; Subject := Some "Standup";
     Start := monday 9 0 0; End_ := monday 9 15 0;
     AllDayEvent := false; BusyStatus := Some 2; series := None |}.

(** A host five hours behind UTC all year. *)
Definition fixed_host : tzrule := fun _ => timedelta_minutes (-300).

(** Every collaborator works; the user saves ["write report"] under
    timecode ["TC-1"]. *)
Definition quiet_env : env :=
  {| restrict_raises := fun _ => false;
     delete_raises := fun _ => false;
     create_raises := false;
     modal := Save "write report" "Dev" "TC-1";
     host := fixed_host;
     now_start := monday 9 7 0;
     now_end := monday 9 7 0;
     shown_at := fun a => wall (astimezone a (fixed_host (wall a))) |}.

Definition world_of (l : list item) : world :=
  {| cal_items := l; cal_series := [7%nat]; state := ∅;
     state_file := None; trace := [] |}.

(** ** The admission rule in the specification's terms *)

Inductive focus_match := EqualsCI | ContainsCI | EqualsExact.

Record PromptRules := mk_PromptRules {
  focus_title : string;
  match_mode : focus_match
}.

(** Title match modes: case-insensitive full match, case-insensitive
    substring, case-sensitive full match. *)
Definition title_matches (rules : PromptRules) (subject : string) : bool :=
  match match_mode rules with
  | EqualsCI => str_eqb (lower subject) (lower (focus_title rules))
  | ContainsCI => str_contains (lower (focus_title rules)) (lower subject)
  | EqualsExact => str_eqb subject (focus_title rules)
  end.

(** The prompt rules a configuration holds: a missing title is
    ["Focus Sprint"], a null one is empty; a missing mode is [EqualsCI],
    an unknown one [EqualsExact]. *)
Definition rules_of (cfg : json) : option PromptRules :=
  match cfg with
  | JObj c =>
      match c !! "prompt_rules" with
      | Some (JObj r) =>
          title ← match r !! "focus_title" with
                  | None => Some "Focus Sprint"%string
                  | Some (JStr s) => Some s
                  | Some v => if truthy v then None else Some ""%string
                  end;
          Some {| focus_title := title;
                  match_mode :=
                    match r !! "focus_match" with
                    | None => EqualsCI
                    | Some v => if json_is_str v "equals_ci" then EqualsCI
                                else if json_is_str v "contains_ci" then ContainsCI
                                else EqualsExact
                    end |}
      | _ => None
      end
  | _ => None
  end.

(** The event [events_in_range] reports for [focus_sprint_0900]. *)
Definition focus_event_0900 : event :=
  {| ev_Subject := "Focus Sprint"; ev_Start := monday 9 0 0;
     ev_End := monday 9 30 0; ev_BusyStatus := Some 2 |}.

(** The admission rule on the 09:00 slot of a calendar holding [l]. *)
Definition should_prompt_0900 (l : list item) : result bool :=
  fst (should_prompt quiet_env default_cfg (monday 9 0 0) (monday 9 30 0)
         (world_of l)).

(** ** The committer's effects, spelled out *)

(** The trace entry one [occ.Delete()] attempt leaves. *)
Definition delete_effect (E : env) (occ : item) : effect :=
  if delete_raises E occ then EStderrDeleteFailed occ else EDelete occ.

(** The identifiers of the occurrences whose deletion goes through. *)
Definition deleted_ids (E : env) (focus_occurs : list item) : list nat :=
  map item_id (filter (fun occ => delete_raises E occ = false) focus_occurs).

(** The overlap test of the calendar query, at the minute resolution of
    [ol_time_str]. *)
Definition overlaps_slot (slot_start slot_end : datetime) (itm : item) : bool :=
  dt_ltb (Start itm) (ol_time_str slot_end)
  && dt_ltb (ol_time_str slot_start) (End_ itm).


Definition is_write_state (e : effect) : bool :=
  match e with EWriteState _ => true | _ => false end.



(** As [quiet_env], but every deletion and the creation fail. *)
Definition failing_env : env :=
  {| restrict_raises := fun _ => false;
     delete_raises := fun _ => true;
     create_raises := true;
     modal := Save "write report" "Dev" "TC-1";
     host := fixed_host;
     now_start := monday 9 7 0;
     now_end := monday 9 7 0;
     shown_at := fun a => wall (astimezone a (fixed_host (wall a))) |}.


(** A configuration file that overrides only the start of the work window. *)
Definition early_start_over : gmap string json :=
  {[ "work_window" := JObj {[ "start" := JStr "08:00" ]} ]}.

(** No configuration file anywhere. *)
Definition empty_fs : filesystem := fun _ => None.

(** ** The UTC conversion in the specification's terms *)

(** The conversion with the offset in force at the converted instant
    itself, rather than at the moment of the call. *)
Definition spec_to_utc_at_instant (host : tzrule) (dt_local_naive : datetime)
  : aware :=
  astimezone {| wall := dt_local_naive; tzinfo := host dt_local_naive |}
             timezone_utc.

(** Sunday 2025-11-02, when US Eastern time falls back from UTC-4 to UTC-5
    as the local clock reaches 02:00. *)
Definition fallback_sunday (h mi s : Z) : datetime := datetime_of 2025 11 2 h mi s.

Definition eastern_autumn_2025 : tzrule := fun t =>
  if dt_ltb t (fallback_sunday 2 0 0) then timedelta_minutes (-240)
  else timedelta_minutes (-300).

(** ** The scheduler's runs, spelled out *)

(** The minute a slot key names, counted from ordinal day 0. *)
Definition key_minutes (k : slot_key) : Z :=
  let '(o, h, m) := k in (o * 24 + h) * 60 + m.

(** The idle samples the loop takes: one per turn inside the work window,
    as "above the threshold" or not. *)
Definition idle_samples (cfg : json) (obs : list observation) : list bool :=
  omap (fun o => match within_work_window cfg (now o) with
                 | Ok true => Some (idle_ms o >? IDLE_THRESHOLD_SEC * 1000)
                 | _ => None
                 end) obs.

(** The idle-to-active transitions of a sequence of samples that follows
    a sample [prev]: the places where a sample above the threshold is
    followed by one at or below it. *)
Fixpoint idle_to_active (prev : bool) (samples : list bool) : nat :=
  match samples with
  | [] => 0
  | b :: rest => (if prev && negb b then 1 else 0) + idle_to_active b rest
  end.

Definition is_resume (a : attempt) : bool :=
  match att_trigger a with Resume => true | Boundary => false end.

(** The clock readings of a run never go backwards. *)
Definition clock_monotone (obs : list observation) : Prop :=
  StronglySorted (fun a b => to_us (slot_now a) <= to_us (slot_now b)) obs.

(** A turn of the loop at [h:mi:s] on the sample Monday. *)
Definition tick_at (h mi s idle : Z) : observation :=
  {| now := monday h mi s; slot_now := monday h mi s; idle_ms := idle;
     prompt_raises := false |}.

(** The loop starts at 09:00:10 with the user away for 90 seconds, and then
    runs every second until 09:29:59 with the user back. *)
Definition resume_first_run : list observation :=
  tick_at 9 0 10 90000 ::
  map (fun i => tick_at 9 (Z.of_nat i / 60) (Z.of_nat i mod 60) 0)
      (seq 11 1789).

(** The boundary prompt of 09:00, then 90 seconds away from 09:10:00 and
    back at 09:10:01. *)
Definition idle_in_prompted_slot : list observation :=
  [tick_at 9 0 0 0; tick_at 9 0 1 0; tick_at 9 10 0 90000; tick_at 9 10 1 0;
   tick_at 9 10 2 0].

Definition slot_0900 : slot_key := strftime_key (monday 9 0 0).

(** The keys [strftime_key] gives for well-formed datetimes. *)
Definition valid_key (k : slot_key) : Prop :=
  let '(_, h, m) := k in 0 <= h < 24 /\ 0 <= m < 60.

(** The minute at which the slot of a clock reading starts. *)
Definition slot_stamp (slot_minutes : Z) (n : datetime) : Z :=
  (ordinal n * 24 + hour n) * 60 + minute n / slot_minutes * slot_minutes.

(** ** Proof steps *)

(** Run the first bind of a computation over the world. *)
Ltac step := unfold mbind at 1, M_bind at 1.

(** ** Further definitions *)

(** Whether hour and minute are in the range [datetime.replace] accepts. *)
Definition valid_hm (h m : Z) : bool :=
  (0 <=? h) && (h <? 24) && (0 <=? m) && (m <? 60).

(** Minutes since midnight. *)
Definition minute_of_day (t : datetime) : Z := hour t * 60 + minute t.

(** The two filters of a calendar query for a range. *)
Definition three_clause (start end_ : datetime) : restriction :=
  {| start_before := ol_time_str end_; end_after := ol_time_str start;
     not_all_day := true |}.
Definition two_clause (start end_ : datetime) : restriction :=
  {| start_before := ol_time_str end_; end_after := ol_time_str start;
     not_all_day := false |}.

(** An entry that overlaps the range and is not all-day. *)
Definition in_slot (start end_ : datetime) (itm : item) : bool :=
  overlaps_slot start end_ itm && negb (AllDayEvent itm).

(** ** The dialog of [run_modal_tk]

    What the user does in the window, in order: a click on Save (with the
    contents of the text box, the selected timecode and the selected
    category at that moment), on Skip or on Snooze, the Escape key, or
    closing the window. *)
Inductive ui_action :=
  | ClickSave (text timecode category : string)
  | ClickSkip
  | ClickSnooze
  | PressEscape
  | CloseWindow.

(** [run_modal_tk]'s [result], which starts as [{"action": "skip"}], once
    the window is destroyed; [None] while the window is still open after
    the last action.  [on_save] refuses an empty text or timecode with a
    warning and leaves the window open. *)
Fixpoint run_dialog (actions : list ui_action) : option prompt_result :=
  match actions with
  | [] => None
  | ClickSave text timecode category :: rest =>
      let text := strip text in
      if negb (nonempty text) then run_dialog rest else
      let tc := strip timecode in
      if negb (nonempty tc) then run_dialog rest else
      Some (Save text category tc)
  | ClickSkip :: _ => Some Skip
  | ClickSnooze :: _ => Some Snooze
  | PressEscape :: _ => Some Skip
  | CloseWindow :: _ => Some Skip
  end.

(** The configuration loaded from [early_start_over]. *)
Definition early_start_cfg : json :=
  match _merge_defaults (JObj early_start_over) with
  | Ok cfg => cfg
  | Raise _ => JNull
  end.

(** ** Times as the dialog shows them *)

Definition digit_char (d : Z) : ascii := ascii_of_N (Z.to_N (48 + d)).

(** A number below 100 as two decimal digits, as [%H] and [%M] print it. *)
Definition two_digits (n : Z) : string :=
  String (digit_char (n / 10)) (String (digit_char (n mod 10)) EmptyString).

(** [d.strftime('%H:%M')], the form in which the dialog shows the bounds
    of the slot. *)
Definition strftime_HM (d : datetime) : string :=
  two_digits (hour d) ++ ":" ++ two_digits (minute d).

(** Whether [parse_hhmm] reads hour [h] and minute [m] back from their
    printed form. *)
Definition reads_back (h m : nat) : bool :=
  match parse_hhmm (JStr (two_digits (Z.of_nat h) ++ ":"
                          ++ two_digits (Z.of_nat m))) with
  | Ok (h', m') => (h' =? Z.of_nat h) && (m' =? Z.of_nat m)
  | Raise _ => false
  end.

(** * Properties *)

(** ** Datetime arithmetic *)

Lemma to_us_of_us (x : Z) : to_us (of_us x) = x.
Proof.
  unfold to_us, of_us; simpl.
  pose proof (Z.div_mod x 86400000000 ltac:(lia)).
  pose proof (Z.mod_pos_bound x 86400000000 ltac:(lia)).
  pose proof (Z.div_mod x 3600000000 ltac:(lia)).
  pose proof (Z.mod_pos_bound x 3600000000 ltac:(lia)).
  pose proof (Z.div_mod x 60000000 ltac:(lia)).
  pose proof (Z.mod_pos_bound x 60000000 ltac:(lia)).
  pose proof (Z.div_mod x 1000000 ltac:(lia)).
  pose proof (Z.mod_pos_bound x 1000000 ltac:(lia)).
  pose proof (Z.div_mod (x mod 86400000000) 3600000000 ltac:(lia)).
  pose proof (Z.mod_pos_bound (x mod 86400000000) 3600000000 ltac:(lia)).
  pose proof (Z.div_mod (x mod 3600000000) 60000000 ltac:(lia)).
  pose proof (Z.mod_pos_bound (x mod 3600000000) 60000000 ltac:(lia)).
  pose proof (Z.div_mod (x mod 60000000) 1000000 ltac:(lia)).
  pose proof (Z.mod_pos_bound (x mod 60000000) 1000000 ltac:(lia)).
  assert (Ha : (x mod 86400000000) mod 3600000000 = x mod 3600000000).
  { apply Z.mod_mod_divide. exists 24. lia. }
  assert (Hb : (x mod 3600000000) mod 60000000 = x mod 60000000).
  { apply Z.mod_mod_divide. exists 60. lia. }
  assert (Hc : (x mod 60000000) mod 1000000 = x mod 1000000).
  { apply Z.mod_mod_divide. exists 60. lia. }
  lia.
Qed.

Lemma of_us_to_us (d : datetime) : wf_datetime d -> of_us (to_us d) = d.
Proof.
  intros (Hh & Hm & Hs & Hu). destruct d as [o h m s u]; simpl in *.
  unfold of_us, to_us; simpl.
  f_equal.
  - symmetry. apply (Z.div_unique _ _ _ (((h * 60 + m) * 60 + s) * 1000000 + u)); lia.
  - replace ((((o * 24 + h) * 60 + m) * 60 + s) * 1000000 + u)
      with ((((h * 60 + m) * 60 + s) * 1000000 + u) + o * 86400000000) by lia.
    rewrite Z.mod_add by lia. rewrite Z.mod_small by lia.
    symmetry. apply (Z.div_unique _ _ _ ((m * 60 + s) * 1000000 + u)); lia.
  - replace ((((o * 24 + h) * 60 + m) * 60 + s) * 1000000 + u)
      with (((m * 60 + s) * 1000000 + u) + (o * 24 + h) * 3600000000) by lia.
    rewrite Z.mod_add by lia. rewrite Z.mod_small by lia.
    symmetry. apply (Z.div_unique _ _ _ (s * 1000000 + u)); lia.
  - replace ((((o * 24 + h) * 60 + m) * 60 + s) * 1000000 + u)
      with ((s * 1000000 + u) + ((o * 24 + h) * 60 + m) * 60000000) by lia.
    rewrite Z.mod_add by lia. rewrite Z.mod_small by lia.
    symmetry. apply (Z.div_unique _ _ _ u); lia.
  - replace ((((o * 24 + h) * 60 + m) * 60 + s) * 1000000 + u)
      with (u + (((o * 24 + h) * 60 + m) * 60 + s) * 1000000) by lia.
    rewrite Z.mod_add by lia. apply Z.mod_small; lia.
Qed.

Lemma dt_sub_add (d : datetime) (delta : timedelta) :
  dt_sub (dt_add d delta) d = delta.
Proof. unfold dt_sub, dt_add. rewrite to_us_of_us. lia. Qed.

Lemma replace_in_range (d : datetime) (m : Z) :
  wf_datetime d -> 0 <= m < 60 ->
  replace d None (Some m) (Some 0) (Some 0)
  = Ok {| ordinal := ordinal d; hour := hour d; minute := m;
          second := 0; microsecond := 0 |}.
Proof.
  intros (Hh & _) Hm. unfold replace; simpl.
  replace ((0 <=? hour d) && (hour d <? 24) && (0 <=? m) && (m <? 60)) with true.
  - reflexivity.
  - symmetry. repeat (apply andb_true_intro; split); lia.
Qed.

Lemma floor_minute_range (m k : Z) :
  0 <= m < 60 -> 0 < k -> 0 <= m / k * k <= m.
Proof.
  intros Hm Hk.
  pose proof (Z.div_mod m k ltac:(lia)).
  pose proof (Z.mod_pos_bound m k Hk).
  pose proof (Z.div_pos m k ltac:(lia) Hk). nia.
Qed.

Lemma floor_minute_30 (m : Z) :
  0 <= m < 60 -> (if m <? 30 then 0 else 30) = m / 30 * 30.
Proof.
  intros Hm. destruct (Z.ltb_spec m 30).
  - rewrite Z.div_small; lia.
  - assert (m / 30 = 1) as ->; [|lia].
    symmetry. apply (Z.div_unique m 30 1 (m - 30)); lia.
Qed.

(** ** SlotClock *)

(** The start of the slot, as [current_slot] computes it for a positive
    width. *)
Lemma current_slot_eq (n : datetime) (slot_minutes : Z) :
  wf_datetime n -> 0 < slot_minutes ->
  current_slot n slot_minutes =
  let s := {| ordinal := ordinal n; hour := hour n;
              minute := minute n / slot_minutes * slot_minutes;
              second := 0; microsecond := 0 |} in
  Ok (s, dt_add s (timedelta_minutes slot_minutes)).
Proof.
  intros Hwf Hk. unfold current_slot.
  pose proof Hwf as (_ & Hm & _).
  pose proof (floor_minute_range (minute n) slot_minutes Hm Hk).
  destruct (Z.eqb_spec slot_minutes 30) as [->|Hne].
  - simpl. rewrite floor_minute_30 by done.
    rewrite replace_in_range by (done || lia). reflexivity.
  - destruct (Z.eqb_spec slot_minutes 0); [lia|]. simpl.
    rewrite replace_in_range by (done || lia). reflexivity.
Qed.

(** C7: for every instant [n] and positive slot width, [current_slot]
    returns a slot that starts in [n]'s hour at [n]'s minute-of-hour floored
    by integer division to a multiple of the width, with seconds and
    sub-seconds zeroed, and that ends exactly the width later; for a width
    of 30 minutes the start minute is 0 or 30. *)
Theorem current_slot_quantizes (n : datetime) (slot_minutes : Z) :
  wf_datetime n -> 0 < slot_minutes ->
  exists s e,
    current_slot n slot_minutes = Ok (s, e) /\
    ordinal s = ordinal n /\ hour s = hour n /\
    minute s = minute n / slot_minutes * slot_minutes /\
    (slot_minutes | minute s) /\
    second s = 0 /\ microsecond s = 0 /\
    e = dt_add s (timedelta_minutes slot_minutes) /\
    dt_sub e s = timedelta_minutes slot_minutes /\
    (slot_minutes = 30 -> minute s = 0 \/ minute s = 30).
Proof.
  intros Hwf Hk. rewrite current_slot_eq by done. simpl.
  eexists _, _. split; [reflexivity|]. simpl.
  repeat split; try reflexivity.
  - by exists (minute n / slot_minutes).
  - apply dt_sub_add.
  - intros ->. destruct Hwf as (_ & Hm & _).
    rewrite <- floor_minute_30 by done. case_match; lia.
Qed.

Lemma current_slot_quantizes_witness :
  exists s e,
    current_slot (monday 9 7 42) 30 = Ok (s, e) /\
    ordinal s = ordinal (monday 9 7 42) /\ hour s = 9 /\
    minute s = 7 / 30 * 30 /\
    (30 | minute s) /\
    second s = 0 /\ microsecond s = 0 /\
    e = dt_add s (timedelta_minutes 30) /\
    dt_sub e s = timedelta_minutes 30 /\
    (30 = 30 -> minute s = 0 \/ minute s = 30).
Proof.
  apply (current_slot_quantizes (monday 9 7 42) 30);
    [unfold wf_datetime; simpl; lia | lia].
Defined.

(** The scenario of the specification: at 09:07 with 30-minute slots the
    slot is 09:00-09:30, and 09:07 lies inside the default work window. *)
Example slot_at_0907 :
  current_slot (monday 9 7 0) 30 = Ok (monday 9 0 0, monday 9 30 0) /\
  within_work_window default_cfg (monday 9 7 0) = Ok true.
Proof. split; reflexivity. Qed.

(** In exact-now mode the seconds of the clock reading are dropped: at
    09:07:42 the slot starts at 09:07:00, not at the reading itself. *)
Lemma exact_now_drops_seconds :
  compute_slot_for_time (monday 9 7 42) default_cfg None true
    = Ok (monday 9 7 0, monday 9 37 0) /\
  compute_slot_for_time (monday 9 7 42) default_cfg None true
    <> Ok (monday 9 7 42, dt_add (monday 9 7 42) (timedelta_minutes 30)).
Proof. split; [reflexivity | discriminate]. Qed.

(** C8 (amended): in exact-now mode the slot starts at the clock reading
    with its seconds and sub-seconds zeroed, the minute-of-hour left as it
    is (no flooring to a multiple of the width), and ends [slot_minutes]
    later; a fake time is ignored. *)
Theorem exact_now_slot (now : datetime) (cfg : json) (fake_hhmm : option string)
    (mins : Z) :
  wf_datetime now -> slot_minutes_of cfg = Ok mins ->
  exists t,
    compute_slot_for_time now cfg fake_hhmm true
      = Ok (t, dt_add t (timedelta_minutes mins)) /\
    ordinal t = ordinal now /\ hour t = hour now /\ minute t = minute now /\
    second t = 0 /\ microsecond t = 0 /\
    dt_sub (dt_add t (timedelta_minutes mins)) t = timedelta_minutes mins.
Proof.
  intros (Hh & Hm & _) Hmins. unfold compute_slot_for_time. rewrite Hmins. simpl.
  unfold replace. simpl.
  replace ((0 <=? hour now) && (hour now <? 24) && (0 <=? minute now)
           && (minute now <? 60)) with true
    by (symmetry; repeat (apply andb_true_intro; split); lia).
  simpl. eexists. split; [reflexivity|]. simpl.
  repeat split; try reflexivity. apply dt_sub_add.
Qed.

Lemma exact_now_slot_witness :
  exists t,
    compute_slot_for_time (monday 9 7 42) default_cfg (Some "13:47"%string) true
      = Ok (t, dt_add t (timedelta_minutes 30)) /\
    ordinal t = ordinal (monday 9 7 42) /\ hour t = 9 /\ minute t = 7 /\
    second t = 0 /\ microsecond t = 0 /\
    dt_sub (dt_add t (timedelta_minutes 30)) t = timedelta_minutes 30.
Proof.
  apply (exact_now_slot (monday 9 7 42) default_cfg (Some "13:47"%string) 30);
    [unfold wf_datetime; simpl; lia | reflexivity].
Defined.

(** ** Strings *)

Lemma lstrip_no_leading_space (s : string) : no_leading_space (lstrip s).
Proof.
  induction s as [|c s IH]; simpl; [done|].
  destruct (isspace c) eqn:Hc; [done|]. simpl. done.
Qed.

Lemma lstrip_id (s : string) : no_leading_space s -> lstrip s = s.
Proof. destruct s as [|c s]; simpl; [done|]. by intros ->. Qed.

Lemma rstrip_no_leading_space (s : string) :
  no_leading_space s -> no_leading_space (rstrip s).
Proof.
  destruct s as [|c s]; simpl; [done|]. intros Hc.
  destruct (rstrip s); simpl; by rewrite ?Hc.
Qed.

Lemma rstrip_idem (s : string) : rstrip (rstrip s) = rstrip s.
Proof.
  induction s as [|c s IH]; simpl; [done|].
  destruct (rstrip s) as [|d t] eqn:Ht.
  - destruct (isspace c) eqn:Hc; simpl; [done|]. by rewrite Hc.
  - simpl in *. by rewrite IH.
Qed.

Lemma strip_idem (s : string) : strip (strip s) = strip s.
Proof.
  unfold strip.
  rewrite (lstrip_id (rstrip (lstrip s))).
  - apply rstrip_idem.
  - apply rstrip_no_leading_space, lstrip_no_leading_space.
Qed.

(** ** AdmissionEngine *)

Lemma restrict_range_reads E start end_ w r w' :
  restrict_range E start end_ w = (r, w') -> w' = w.
Proof.
  unfold restrict_range, try_except, Restrict, mbind, M_bind, read_items,
    lift, mret, M_ret.
  repeat case_match; simplify_eq; congruence.
Qed.



Lemma events_in_range_stripped E start end_ w evs w' ev :
  events_in_range E start end_ w = (Ok evs, w') ->
  ev ∈ evs -> strip (ev_Subject ev) = ev_Subject ev.
Proof.
  unfold events_in_range, mbind, M_bind.
  destruct (restrict_range E start end_ w) as [[l|?] w1]; [|discriminate].
  unfold mret, M_ret. intros [= <- <-] Hin.
  apply list_elem_of_omap in Hin as (itm & _ & Hitm).
  unfold event_of in Hitm.
  destruct (AllDayEvent itm); [discriminate|].
  injection Hitm as <-. simpl. apply strip_idem.
Qed.

Lemma rules_match_configured cfg rules subject :
  rules_of cfg = Some rules ->
  strip subject = subject ->
  (r ← getitem cfg "prompt_rules"; rules_match r subject)
  = Ok (title_matches rules subject).
Proof.
  unfold rules_of. destruct cfg as [| | | | |c]; try discriminate.
  simpl. destruct (c !! "prompt_rules") as [[| | | | |r]|]; try discriminate.
  simpl. unfold rules_match, get_default, title_matches, _is_focus_title.
  intros Hr Hs. simpl. rewrite Hs.
  destruct (r !! "focus_title") as [ft|] eqn:Hft;
    destruct (r !! "focus_match") as [fm|] eqn:Hfm; simpl in *.
  - destruct ft as [| b | n | t | l | m]; simpl in *;
      repeat case_match; simplify_eq; simpl in *; try done.
    all: try (unfold str_eqb in *; repeat case_bool_decide; simplify_eq; done).
  - destruct ft as [| b | n | t | l | m]; simpl in *;
      repeat case_match; simplify_eq; simpl in *; try done.
    all: try (unfold str_eqb in *; repeat case_bool_decide; simplify_eq; done).
  - injection Hr as <-. simpl.
    repeat case_match; simpl; try done.
    all: try (unfold str_eqb in *; repeat case_bool_decide; simplify_eq; done).
  - injection Hr as <-. simpl. done.
Qed.

Lemma events_in_range_unfold E start end_ w :
  events_in_range E start end_ w =
  match restrict_range E start end_ w with
  | (Ok l, w') => (Ok (omap event_of l), w')
  | (Raise e, w') => (Raise e, w')
  end.
Proof. reflexivity. Qed.

Lemma events_in_range_reads E start end_ w r w' :
  events_in_range E start end_ w = (r, w') -> w' = w.
Proof.
  rewrite events_in_range_unfold.
  destruct (restrict_range E start end_ w) as [[l|?] w1] eqn:Hr;
    apply restrict_range_reads in Hr; congruence.
Qed.

Lemma should_prompt_unfold E cfg slot_start slot_end w evs w' :
  events_in_range E slot_start slot_end w = (Ok evs, w') ->
  should_prompt E cfg slot_start slot_end w =
  match evs with
  | [] => (Ok true, w')
  | [ev] => (r ← getitem cfg "prompt_rules"; rules_match r (ev_Subject ev), w')
  | _ => (Ok false, w')
  end.
Proof.
  intros Hev. unfold should_prompt, mbind at 1, M_bind at 1. rewrite Hev.
  destruct evs as [|ev [|? ?]]; try reflexivity.
  unfold mbind, M_bind, lift, result_bind.
  by destruct (getitem cfg "prompt_rules").
Qed.

(** C1: on the list [evs] of overlapping non-all-day events of the slot,
    [should_prompt] returns true when the list is empty, returns whether the
    subject matches the configured focus title under the configured mode
    when the list has exactly one event, and returns false when it has two
    or more; the calendar and the state are left as they were. *)
Theorem should_prompt_admission E cfg slot_start slot_end w evs w' :
  events_in_range E slot_start slot_end w = (Ok evs, w') ->
  w' = w /\
  (evs = [] -> should_prompt E cfg slot_start slot_end w = (Ok true, w)) /\
  (forall ev rules,
     evs = [ev] -> rules_of cfg = Some rules ->
     should_prompt E cfg slot_start slot_end w
     = (Ok (title_matches rules (ev_Subject ev)), w)) /\
  ((2 <= length evs)%nat ->
     should_prompt E cfg slot_start slot_end w = (Ok false, w)).
Proof.
  intros Hev.
  assert (w' = w) as -> by (by eapply events_in_range_reads).
  split; [done|].
  rewrite (should_prompt_unfold _ _ _ _ _ _ _ Hev).
  split; [by intros ->|]. split.
  - intros ev rules -> Hrules.
    pose proof (events_in_range_stripped _ _ _ _ _ _ ev Hev) as Hs.
    specialize (Hs ltac:(set_solver)).
    by rewrite (rules_match_configured cfg rules _ Hrules Hs).
  - intros Hlen. destruct evs as [|? [|? ?]]; simpl in Hlen; try lia. done.
Qed.

Lemma should_prompt_admission_witness :
  events_in_range quiet_env (monday 9 0 0) (monday 9 30 0)
    (world_of [focus_sprint_0900])
  = (Ok [focus_event_0900], world_of [focus_sprint_0900]) /\
  should_prompt quiet_env default_cfg (monday 9 0 0) (monday 9 30 0)
    (world_of [focus_sprint_0900])
  = (Ok true, world_of [focus_sprint_0900]).
Proof.
  assert (events_in_range quiet_env (monday 9 0 0) (monday 9 30 0)
            (world_of [focus_sprint_0900])
          = (Ok [focus_event_0900], world_of [focus_sprint_0900])) as Hev
    by reflexivity.
  split; [exact Hev|].
  destruct (should_prompt_admission quiet_env default_cfg _ _ _ _ _ Hev)
    as (_ & _ & Hone & _).
  apply (Hone focus_event_0900
           {| focus_title := "Focus Sprint"; match_mode := EqualsCI |});
    reflexivity.
Defined.

(** The scenarios of the specification: an empty slot and a lone
    "Focus Sprint" are let through; a lone "Standup" and two events are not. *)
Example should_prompt_scenarios :
  should_prompt_0900 [] = Ok true /\
  should_prompt_0900 [focus_sprint_0900] = Ok true /\
  should_prompt_0900 [standup_0900] = Ok false /\
  should_prompt_0900 [focus_sprint_0900; focus_sprint_0915] = Ok false.
Proof. repeat split. Qed.

(** ** AppointmentCommitter *)

Lemma delete_all_spec E focus_occurs w :
  exists w',
    delete_all E focus_occurs w = (Ok tt, w') /\
    trace w' = trace w ++ map (delete_effect E) focus_occurs /\
    cal_series w' = cal_series w /\
    state w' = state w /\ state_file w' = state_file w /\
    (forall itm, itm ∈ cal_items w' <->
       itm ∈ cal_items w /\ item_id itm ∉ deleted_ids E focus_occurs).
Proof.
  revert w. induction focus_occurs as [|occ rest IH]; intros w.
  - exists w. simpl. rewrite app_nil_r. split_and!; try done.
    intros itm. unfold deleted_ids; simpl. set_solver.
  - simpl. unfold mbind at 1, M_bind at 1, try_except, Delete, delete_effect.
    unfold deleted_ids. simpl.
    destruct (delete_raises E occ) eqn:Hd; simpl.
    + destruct (IH {| cal_items := cal_items w; cal_series := cal_series w;
                      state := state w; state_file := state_file w;
                      trace := trace w ++ [EStderrDeleteFailed occ] |})
        as (w' & Hrun & Htr & Hse & Hst & Hsf & Hit).
      exists w'. simpl in *. rewrite Hrun, Htr, <- app_assoc. simpl.
      rewrite filter_cons_False by (rewrite Hd; done).
      split_and!; try done.
    + destruct (IH {| cal_items := filter (fun itm => item_id itm ≠ item_id occ)
                                     (cal_items w);
                      cal_series := cal_series w;
                      state := state w; state_file := state_file w;
                      trace := trace w ++ [EDelete occ] |})
        as (w' & Hrun & Htr & Hse & Hst & Hsf & Hit).
      exists w'. simpl in *. rewrite Hrun, Htr, <- app_assoc. simpl.
      rewrite filter_cons_True by (rewrite Hd; done). simpl.
      split_and!; try done.
      intros itm. rewrite Hit, list_elem_of_filter.
      unfold deleted_ids. set_solver.
Qed.





(** When the gates let the prompt through, [prompt_once] shows the dialog
    and hands its answer to [handle_result]. *)
Lemma prompt_once_shown E cfg slot_start slot_end bypass preview_only w
    cats snooze_m :
  bypass = true \/
    (within_work_window cfg slot_start = Ok true /\
     should_prompt E cfg slot_start slot_end w = (Ok true, w)) ->
  get_default cfg "categories" (JObj ∅) = Ok cats ->
  snooze_minutes_of cfg = Ok snooze_m ->
  prompt_once E cfg slot_start slot_end bypass preview_only w =
  handle_result E cfg slot_start slot_end preview_only cats snooze_m (modal E)
    (snd (emit (EModal slot_start slot_end) w)).
Proof.
  intros Hgate Hcats Hsn. unfold prompt_once.
  destruct Hgate as [->|[Hw Hs]].
  - unfold mbind at 1 2 3 4 5, M_bind at 1 2 3 4 5, mret, M_ret, lift. simpl.
    rewrite Hcats, Hsn. reflexivity.
  - destruct bypass.
    + unfold mbind at 1 2 3 4 5, M_bind at 1 2 3 4 5, mret, M_ret, lift. simpl.
      rewrite Hcats, Hsn. reflexivity.
    + step; unfold lift. rewrite Hw. simpl.
      step. rewrite Hs. simpl.
      unfold mbind at 1 2 3, M_bind at 1 2 3, lift.
      rewrite Hcats, Hsn. reflexivity.
Qed.





(** In preview mode no entry is created: after the deletions the committer
    logs the would-be entry with its UTC bounds, and nothing is added to
    the calendar. *)
Lemma preview_only_never_creates E cfg slot_start slot_end subj oc focus w :
  find_focus_occurrences E slot_start slot_end cfg w = (Ok focus, w) ->
  exists w1,
    commit E cfg slot_start slot_end true subj oc w = (Ok tt, w1) /\
    trace w1 = trace w ++ map (delete_effect E) focus ++
      [EPreview subj (categories_of oc)
         {| wall := slot_start; tzinfo := host E (now_start E) |}
         {| wall := slot_end; tzinfo := host E (now_end E) |}
         (_to_utc_from_local_wall (host E) (now_start E) slot_start)
         (_to_utc_from_local_wall (host E) (now_end E) slot_end)] /\
    (forall itm, itm ∈ cal_items w1 -> itm ∈ cal_items w).
Proof.
  intros Hfocus.
  destruct (delete_all_spec E focus w)
    as (wd & Hrun & Htr & Hse & Hst & Hsf & Hit).
  unfold commit. step. rewrite Hfocus.
  step. rewrite Hrun.
  unfold _preview_log, _local_and_utc, emit. simpl.
  eexists. split; [reflexivity|]. simpl.
  rewrite Htr, <- app_assoc. split; [done|].
  intros itm Hin. by apply Hit in Hin as [? _].
Qed.

(** ** RememberedState *)





(** With both calendar writes failing the state is still saved: the trace
    of the prompt is the dialog, the two failure messages and the write. *)
Example failing_calendar_still_remembers :
  map is_write_state
    (trace (snd (prompt_once failing_env default_cfg (monday 9 0 0) (monday 9 30 0)
                   false false (world_of [focus_sprint_0900]))))
  = [false; false; false; true] /\
  cal_items (snd (prompt_once failing_env default_cfg (monday 9 0 0) (monday 9 30 0)
                    false false (world_of [focus_sprint_0900])))
  = [focus_sprint_0900].
Proof. split; reflexivity. Qed.

(** ** Configuration *)

Lemma merge_fold (over cfg : gmap string json) :
  map_fold (fun k v c => <[k:=v]> c) cfg over = over ∪ cfg.
Proof.
  apply (map_fold_weak_ind (fun r m => r = m ∪ cfg)).
  - by rewrite (left_id_L ∅ (∪)).
  - intros k v m r _ ->. by rewrite insert_union_l.
Qed.

Lemma merge_defaults_empty : _merge_defaults (JObj ∅) = Ok (JObj DEFAULTS).
Proof. reflexivity. Qed.

(** A file that overrides one key of a section loses the section's other
    defaults: the loaded configuration has no ["end"] of the work window,
    and the work-window gate raises [KeyError] on it. *)
Lemma partial_section_loses_defaults :
  exists cfg,
    _merge_defaults (JObj early_start_over) = Ok cfg /\
    (getitem cfg "work_window" ≫= fun ww => getitem ww "start")
      = Ok (JStr "08:00") /\
    (getitem cfg "work_window" ≫= fun ww => getitem ww "end")
      = Raise KeyError /\
    (getitem (JObj DEFAULTS) "work_window" ≫= fun ww => getitem ww "end")
      = Ok (JStr "17:00") /\
    within_work_window cfg (monday 9 7 42) = Raise KeyError.
Proof. eexists. split; [reflexivity|]. repeat split. Qed.

(** C9 (amended): defaults are filled in at the top level only.  For every
    override mapping whose ["outlook"] entry, if any, is a mapping, the
    merge succeeds; every top-level key other than ["outlook"] holds the
    override's value when the override has the key, taken whole, and the
    default value when it has not; ["outlook"] is the override's (or the
    default) section with ["tz_id"] added when missing.  When every
    candidate file is absent or unparseable the loader returns the full
    default configuration. *)
Theorem merge_defaults_top_level (over : gmap string json) :
  (forall v, over !! "outlook" = Some v -> exists o, v = JObj o) ->
  (exists cfg,
     _merge_defaults (JObj over) = Ok (JObj cfg) /\
     (forall k v, k ≠ "outlook"%string -> over !! k = Some v -> cfg !! k = Some v) /\
     (forall k, over !! k = None -> cfg !! k = DEFAULTS !! k) /\
     (forall o, over !! "outlook" = Some (JObj o) ->
        cfg !! "outlook" =
        Some (JObj (match o !! "tz_id" with
                    | Some _ => o
                    | None => <["tz_id":=JNull]> o
                    end)))) /\
  (forall fs here cwd cli_path,
     (forall p, fs p = None \/ fs p = Some Unparseable) ->
     load_config fs here cwd cli_path = Ok (JObj DEFAULTS)).
Proof.
  intros Hout. split.
  - unfold _merge_defaults.
    assert (items (if truthy (JObj over) then JObj over else JObj ∅) = Ok over)
      as ->.
    { simpl. case_bool_decide as He; simpl; [by rewrite He|done]. }
    simpl. rewrite merge_fold.
    set (c0 := over ∪ DEFAULTS).
    set (c1 := match c0 !! "categories" with
               | Some _ => c0
               | None => <["categories":=JObj ∅]> c0
               end).
    assert (Hc1 : c1 = c0).
    { unfold c1. destruct (c0 !! "categories") eqn:Hc; [done|].
      unfold c0 in Hc. apply lookup_union_None in Hc as [_ Hc].
      by vm_compute in Hc. }
    rewrite Hc1. clear c1 Hc1.
    assert (Hc0 : forall k, c0 !! k = match over !! k with
                                      | Some v => Some v
                                      | None => DEFAULTS !! k
                                      end).
    { intros k. unfold c0. rewrite lookup_union.
      destruct (over !! k), (DEFAULTS !! k); done. }
    rewrite (Hc0 "outlook"%string).
    destruct (over !! "outlook") as [vo|] eqn:Ho.
    + destruct (Hout vo eq_refl) as [o ->].
      destruct (o !! "tz_id") eqn:Htz.
      * eexists. split; [reflexivity|]. split_and!.
        -- intros k v Hk Hv. by rewrite Hc0, Hv.
        -- intros k Hk. by rewrite Hc0, Hk.
        -- intros o' [= <-]. by rewrite Hc0, Ho, Htz.
      * eexists. split; [reflexivity|]. split_and!.
        -- intros k v Hk Hv. rewrite lookup_insert_ne by done.
           by rewrite Hc0, Hv.
        -- intros k Hk. rewrite lookup_insert_ne by congruence.
           by rewrite Hc0, Hk.
        -- intros o' [= <-]. by rewrite lookup_insert_eq, Htz.
    + assert (DEFAULTS !! "outlook" = Some (JObj {[ "tz_id" := JNull ]})) as ->
        by reflexivity.
      simpl. eexists. split; [reflexivity|]. split_and!.
      * intros k v Hk Hv. by rewrite Hc0, Hv.
      * intros k Hk. by rewrite Hc0, Hk.
      * done.
  - intros fs here cwd cli_path Hfs.
    assert (Hl : forall p, loaded (fst (_try_load_json fs p)) = None).
    { intros p. unfold _try_load_json. by destruct (Hfs p) as [-> | ->]. }
    unfold load_config. rewrite (Hl here), (Hl cwd).
    destruct cli_path as [p|]; [|apply merge_defaults_empty].
    rewrite (Hl p). destruct (str_eqb p ""); apply merge_defaults_empty.
Qed.

Lemma merge_defaults_top_level_witness :
  (exists cfg,
     _merge_defaults (JObj early_start_over) = Ok (JObj cfg) /\
     (forall k v, k ≠ "outlook"%string -> early_start_over !! k = Some v ->
        cfg !! k = Some v) /\
     (forall k, early_start_over !! k = None -> cfg !! k = DEFAULTS !! k) /\
     (forall o, early_start_over !! "outlook" = Some (JObj o) ->
        cfg !! "outlook" =
        Some (JObj (match o !! "tz_id" with
                    | Some _ => o
                    | None => <["tz_id":=JNull]> o
                    end)))) /\
  (forall fs here cwd cli_path,
     (forall p, fs p = None \/ fs p = Some Unparseable) ->
     load_config fs here cwd cli_path = Ok (JObj DEFAULTS)).
Proof.
  apply (merge_defaults_top_level early_start_over).
  intros v Hv. vm_compute in Hv. discriminate.
Defined.

Example load_config_no_file :
  load_config empty_fs "app/config.json" "config.json" None
  = Ok (JObj DEFAULTS).
Proof. reflexivity. Qed.

(** ** UTC conversion *)

(** On the night US Eastern time falls back, at 01:45 local time, the end
    02:00 of the slot 01:30-02:00 is converted with the offset in force at
    01:45 (UTC-4) and becomes 06:00 UTC; with the offset in force at 02:00
    itself (UTC-5) it is 07:00 UTC.  Read back with the offset of that
    instant, 06:00 UTC is 01:00 local time, not 02:00. *)
Lemma conversion_uses_offset_of_now :
  _to_utc_from_local_wall eastern_autumn_2025 (fallback_sunday 1 45 0)
    (fallback_sunday 2 0 0)
  = {| wall := fallback_sunday 6 0 0; tzinfo := timezone_utc |} /\
  spec_to_utc_at_instant eastern_autumn_2025 (fallback_sunday 2 0 0)
  = {| wall := fallback_sunday 7 0 0; tzinfo := timezone_utc |} /\
  _to_utc_from_local_wall eastern_autumn_2025 (fallback_sunday 1 45 0)
    (fallback_sunday 2 0 0)
  <> spec_to_utc_at_instant eastern_autumn_2025 (fallback_sunday 2 0 0) /\
  wall (astimezone
          (_to_utc_from_local_wall eastern_autumn_2025 (fallback_sunday 1 45 0)
             (fallback_sunday 2 0 0))
          (eastern_autumn_2025 (fallback_sunday 2 0 0)))
  = fallback_sunday 1 0 0.
Proof. split_and!; try reflexivity. discriminate. Qed.

Lemma to_utc_wall (host : tzrule) (now dt : datetime) :
  to_us (wall (_to_utc_from_local_wall host now dt)) = to_us dt - host now.
Proof.
  unfold _to_utc_from_local_wall, astimezone, _local_tz, timezone_utc, dt_add.
  simpl. rewrite to_us_of_us. lia.
Qed.

(** C6 (amended): each slot boundary is converted by subtracting the host's
    UTC offset in force at the moment of the call, a fixed offset taken
    from the current time and not the offset at the boundary instant.
    Converting the result back with that same offset yields the original
    wall-clock boundary, and when both calls see the same offset the UTC
    bounds are as far apart as the local ones, so the slot duration is
    preserved whatever transition is pending. *)
Theorem utc_conversion_current_offset (host : tzrule)
    (now1 now2 slot_start slot_end : datetime) :
  wf_datetime slot_start -> wf_datetime slot_end ->
  host now1 = host now2 ->
  tzinfo (_to_utc_from_local_wall host now1 slot_start) = timezone_utc /\
  tzinfo (_to_utc_from_local_wall host now2 slot_end) = timezone_utc /\
  to_us (wall (_to_utc_from_local_wall host now1 slot_start))
    = to_us slot_start - host now1 /\
  to_us (wall (_to_utc_from_local_wall host now2 slot_end))
    = to_us slot_end - host now2 /\
  wall (astimezone (_to_utc_from_local_wall host now1 slot_start)
          (_local_tz host now1)) = slot_start /\
  wall (astimezone (_to_utc_from_local_wall host now2 slot_end)
          (_local_tz host now2)) = slot_end /\
  dt_sub (wall (_to_utc_from_local_wall host now2 slot_end))
         (wall (_to_utc_from_local_wall host now1 slot_start))
    = dt_sub slot_end slot_start.
Proof.
  intros Hs He Hoff.
  assert (Hback : forall now dt, wf_datetime dt ->
            wall (astimezone (_to_utc_from_local_wall host now dt)
                    (_local_tz host now)) = dt).
  { intros now dt Hwf.
    unfold _to_utc_from_local_wall, astimezone, _local_tz, timezone_utc.
    simpl. replace (0 - host now) with (- (host now - 0)) by lia.
    replace (host now - 0) with (host now) by lia.
    unfold dt_add. rewrite to_us_of_us.
    replace (to_us dt + - host now + host now) with (to_us dt) by lia.
    by apply of_us_to_us. }
  split_and!; try reflexivity.
  - apply to_utc_wall.
  - apply to_utc_wall.
  - by apply Hback.
  - by apply Hback.
  - unfold dt_sub. rewrite !to_utc_wall. lia.
Qed.

Lemma utc_conversion_current_offset_witness :
  tzinfo (_to_utc_from_local_wall eastern_autumn_2025 (fallback_sunday 1 45 0)
            (fallback_sunday 1 30 0)) = timezone_utc /\
  tzinfo (_to_utc_from_local_wall eastern_autumn_2025 (fallback_sunday 1 45 0)
            (fallback_sunday 2 0 0)) = timezone_utc /\
  to_us (wall (_to_utc_from_local_wall eastern_autumn_2025
                 (fallback_sunday 1 45 0) (fallback_sunday 1 30 0)))
    = to_us (fallback_sunday 1 30 0)
      - eastern_autumn_2025 (fallback_sunday 1 45 0) /\
  to_us (wall (_to_utc_from_local_wall eastern_autumn_2025
                 (fallback_sunday 1 45 0) (fallback_sunday 2 0 0)))
    = to_us (fallback_sunday 2 0 0)
      - eastern_autumn_2025 (fallback_sunday 1 45 0) /\
  wall (astimezone (_to_utc_from_local_wall eastern_autumn_2025
                      (fallback_sunday 1 45 0) (fallback_sunday 1 30 0))
          (_local_tz eastern_autumn_2025 (fallback_sunday 1 45 0)))
    = fallback_sunday 1 30 0 /\
  wall (astimezone (_to_utc_from_local_wall eastern_autumn_2025
                      (fallback_sunday 1 45 0) (fallback_sunday 2 0 0))
          (_local_tz eastern_autumn_2025 (fallback_sunday 1 45 0)))
    = fallback_sunday 2 0 0 /\
  dt_sub (wall (_to_utc_from_local_wall eastern_autumn_2025
                  (fallback_sunday 1 45 0) (fallback_sunday 2 0 0)))
         (wall (_to_utc_from_local_wall eastern_autumn_2025
                  (fallback_sunday 1 45 0) (fallback_sunday 1 30 0)))
    = dt_sub (fallback_sunday 2 0 0) (fallback_sunday 1 30 0).
Proof.
  apply (utc_conversion_current_offset eastern_autumn_2025
           (fallback_sunday 1 45 0) (fallback_sunday 1 45 0)
           (fallback_sunday 1 30 0) (fallback_sunday 2 0 0));
    [unfold wf_datetime; simpl; lia | unfold wf_datetime; simpl; lia
    | reflexivity].
Defined.

(** The entry the committer saves lasts as long as the slot. *)
Corollary appointment_keeps_duration E slot_start slot_end subj oc :
  host E (now_start E) = host E (now_end E) ->
  dt_sub (wall (EndUTC (appointment_for E slot_start slot_end subj oc)))
         (wall (StartUTC (appointment_for E slot_start slot_end subj oc)))
  = dt_sub slot_end slot_start.
Proof.
  intros Hoff. unfold appointment_for, dt_sub. cbn [EndUTC StartUTC].
  rewrite !to_utc_wall. lia.
Qed.

(** ** IdleDebouncer and SchedulerLoop *)

Lemma boundary_trigger_spec now k s e st st1 calls1 :
  boundary_trigger now k s e st = (st1, calls1) ->
  was_idle st1 = was_idle st /\
  Forall (fun a => att_key a = k /\ att_trigger a = Boundary) calls1 /\
  ((calls1 = [] /\ st1 = st) \/
   (calls1 = [mk_attempt Boundary k s e] /\
    Some k ≠ last_slot_key_prompted st /\
    last_slot_key_prompted st1 = Some k)).
Proof.
  unfold boundary_trigger. case_match eqn:Hc; intros [= <- <-]; simpl.
  - apply andb_prop in Hc as [Hk _]. apply bool_decide_eq_true in Hk.
    split_and!; [done|by repeat constructor|by right].
  - split_and!; [done|constructor|by left].
Qed.

Lemma resume_trigger_spec idle k s e st st2 calls2 :
  resume_trigger idle k s e st = (st2, calls2) ->
  was_idle st2 = (idle >? IDLE_THRESHOLD_SEC * 1000) /\
  Forall (fun a => att_key a = k /\ att_trigger a = Resume) calls2 /\
  ((calls2 = [] /\ last_slot_key_prompted st2 = last_slot_key_prompted st) \/
   (calls2 = [mk_attempt Resume k s e] /\
    was_idle st = true /\ (idle >? IDLE_THRESHOLD_SEC * 1000) = false /\
    Some k ≠ last_slot_key_prompted st /\
    last_slot_key_prompted st2 = Some k)).
Proof.
  unfold resume_trigger. destruct (idle >? IDLE_THRESHOLD_SEC * 1000) eqn:Hi.
  - intros [= <- <-]. simpl. split_and!; [done|constructor|by left].
  - destruct (was_idle st) eqn:Hw.
    + case_bool_decide as Hk; intros [= <- <-]; simpl.
      * split_and!; [done|by repeat constructor|by right].
      * split_and!; [done|constructor|by left].
    + intros [= <- <-]. split_and!; [done|constructor|by left].
Qed.

Lemma resumes_of_turn cfg slot_minutes st o calls r :
  loop_body cfg slot_minutes st o = (calls, r) ->
  match within_work_window cfg (now o) with
  | Ok true =>
      (length (List.filter is_resume calls)
       <= if was_idle st && negb (idle_ms o >? IDLE_THRESHOLD_SEC * 1000)
          then 1 else 0)%nat /\
      (forall st', r = Ok st' ->
         was_idle st' = (idle_ms o >? IDLE_THRESHOLD_SEC * 1000))
  | _ => calls = [] /\ (forall st', r = Ok st' -> st' = st)
  end.
Proof.
  unfold loop_body.
  destruct (within_work_window cfg (now o)) as [[]|];
    [|intros [= <- <-]; split; [done|by intros ? [= <-]]
     |intros [= <- <-]; split; [done|by intros ? [= <-]]].
  destruct (current_slot (slot_now o) slot_minutes) as [[s e]|];
    [|intros [= <- <-]; simpl; split; [case_match; lia|done]].
  destruct (boundary_trigger (now o) (strftime_key s) s e st)
    as [st1 calls1] eqn:Hb.
  apply boundary_trigger_spec in Hb as (Hw1 & _ & Hb).
  assert (List.filter is_resume calls1 = []) as Hnb
      by (by destruct Hb as [[-> _]|[-> _]]).
  destruct (any_call calls1 && prompt_raises o).
  { intros [= <- <-]. rewrite Hnb. simpl. split; [case_match; lia|done]. }
  destruct (resume_trigger (idle_ms o) (strftime_key s) s e st1)
    as [st2 calls2] eqn:Hr.
  apply resume_trigger_spec in Hr as (Hw2 & _ & Hr).
  assert (length (List.filter is_resume (calls1 ++ calls2))
          <= if was_idle st && negb (idle_ms o >? IDLE_THRESHOLD_SEC * 1000)
             then 1 else 0)%nat as Hlen.
  { rewrite List.filter_app, Hnb. simpl.
    destruct Hr as [[-> _]|(-> & Hw & Hi & _)]; simpl; [lia|].
    rewrite <- Hw1, Hw, Hi. simpl. lia. }
  destruct (any_call calls2 && prompt_raises o); intros [= <- <-];
    (split; [done|]); [done|].
  by intros st' [= <-].
Qed.

(** C5: the idle debouncer.  A sample above the 60-second threshold sets
    [was_idle] and does nothing else.  A sample at or below it while
    [was_idle] holds clears [was_idle] and calls [prompt_once] for the
    current slot exactly when that slot is not the last one prompted, which
    it then becomes; in a slot already prompted it calls nothing.  Without
    [was_idle] nothing happens.  Over any run of the loop the resume
    prompts are at most as many as the idle-to-active transitions of the
    samples taken. *)
Theorem idle_debouncer_resumes :
  (forall idle k s e st,
     idle > IDLE_THRESHOLD_SEC * 1000 ->
     resume_trigger idle k s e st
     = ({| last_slot_key_prompted := last_slot_key_prompted st;
           was_idle := true |}, [])) /\
  (forall idle k s e st,
     idle <= IDLE_THRESHOLD_SEC * 1000 -> was_idle st = true ->
     (last_slot_key_prompted st ≠ Some k ->
      resume_trigger idle k s e st
      = ({| last_slot_key_prompted := Some k; was_idle := false |},
         [mk_attempt Resume k s e])) /\
     (last_slot_key_prompted st = Some k ->
      resume_trigger idle k s e st
      = ({| last_slot_key_prompted := Some k; was_idle := false |}, []))) /\
  (forall idle k s e st,
     idle <= IDLE_THRESHOLD_SEC * 1000 -> was_idle st = false ->
     resume_trigger idle k s e st = (st, [])) /\
  (forall cfg slot_minutes st obs,
     (length (List.filter is_resume
                (fst (scheduler_loop cfg slot_minutes st obs)))
      <= idle_to_active (was_idle st) (idle_samples cfg obs))%nat).
Proof.
  split_and!.
  - intros idle k s e st Hi. unfold resume_trigger.
    by destruct (Z.gtb_spec idle (IDLE_THRESHOLD_SEC * 1000)); [|lia].
  - intros idle k s e st Hi Hw. unfold resume_trigger.
    destruct (Z.gtb_spec idle (IDLE_THRESHOLD_SEC * 1000)); [lia|].
    rewrite Hw. split; intros Hk.
    + by rewrite bool_decide_eq_true_2 by congruence.
    + rewrite bool_decide_eq_false_2 by (rewrite Hk; auto).
      by rewrite Hk.
  - intros idle k s e st Hi Hw. unfold resume_trigger.
    destruct (Z.gtb_spec idle (IDLE_THRESHOLD_SEC * 1000)); [lia|].
    by rewrite Hw.
  - intros cfg slot_minutes st obs. revert st.
    induction obs as [|o rest IH]; intros st; [simpl; lia|].
    simpl. unfold idle_samples. csimpl. fold (idle_samples cfg rest).
    destruct (loop_body cfg slot_minutes st o) as [calls r] eqn:Hbody.
    pose proof (resumes_of_turn _ _ _ _ _ _ Hbody) as Hturn.
    destruct (within_work_window cfg (now o)) as [[]|].
    + destruct Hturn as [Hlen Hst]. destruct r as [st'|]; simpl.
      * specialize (IH st'). rewrite (Hst st' eq_refl) in IH.
        destruct (scheduler_loop cfg slot_minutes st' rest) as [more r'].
        simpl in *. rewrite List.filter_app, length_app. lia.
      * lia.
    + destruct Hturn as [-> Hst]. destruct r as [st'|]; simpl; [|lia].
      rewrite (Hst st' eq_refl). specialize (IH st).
      by destruct (scheduler_loop cfg slot_minutes st rest).
    + destruct Hturn as [-> Hst]. destruct r as [st'|]; simpl; [|lia].
      rewrite (Hst st' eq_refl). specialize (IH st).
      by destruct (scheduler_loop cfg slot_minutes st rest).
Qed.

Lemma idle_debouncer_resumes_witness :
  resume_trigger 90000 slot_0900 (monday 9 0 0) (monday 9 30 0) sched_init
  = ({| last_slot_key_prompted := None; was_idle := true |}, []).
Proof.
  destruct idle_debouncer_resumes as (Habove & _).
  apply (Habove 90000 slot_0900 (monday 9 0 0) (monday 9 30 0) sched_init).
  unfold IDLE_THRESHOLD_SEC. lia.
Defined.

(** The scenario of the specification: idle for 90 seconds and active
    again inside a slot that was already prompted; the only call of the run
    is the boundary prompt. *)
Example resume_in_prompted_slot :
  fst (main_loop default_cfg idle_in_prompted_slot)
  = [mk_attempt Boundary slot_0900 (monday 9 0 0) (monday 9 30 0)].
Proof. reflexivity. Qed.

Lemma key_minutes_inj (k1 k2 : slot_key) :
  valid_key k1 -> valid_key k2 -> key_minutes k1 = key_minutes k2 -> k1 = k2.
Proof.
  destruct k1 as [[o1 h1] m1], k2 as [[o2 h2] m2]. simpl.
  intros [? ?] [? ?] Heq.
  assert (o1 = o2) by lia. assert (h1 = h2) by lia. assert (m1 = m2) by lia.
  by subst.
Qed.

Lemma slot_stamp_mono (k : Z) (n1 n2 : datetime) :
  0 < k -> wf_datetime n1 -> wf_datetime n2 ->
  to_us n1 <= to_us n2 -> slot_stamp k n1 <= slot_stamp k n2.
Proof.
  intros Hk (Hh1 & Hm1 & Hs1 & Hu1) (Hh2 & Hm2 & Hs2 & Hu2).
  unfold to_us, slot_stamp. intros Hle.
  pose proof (floor_minute_range (minute n1) k Hm1 Hk).
  pose proof (floor_minute_range (minute n2) k Hm2 Hk).
  set (H1 := ordinal n1 * 24 + hour n1) in *.
  set (H2 := ordinal n2 * 24 + hour n2) in *.
  assert (H1 * 60 + minute n1 <= H2 * 60 + minute n2) as Hmin by lia.
  destruct (Z.lt_trichotomy H1 H2) as [?|[Heq|?]]; [lia| |lia].
  rewrite Heq in *.
  assert (minute n1 <= minute n2) as Hmm by lia.
  pose proof (Z.div_le_mono (minute n1) (minute n2) k Hk Hmm).
  nia.
Qed.

Lemma current_slot_key (n : datetime) (k : Z) (s e : datetime) :
  wf_datetime n -> 0 < k -> current_slot n k = Ok (s, e) ->
  key_minutes (strftime_key s) = slot_stamp k n /\ valid_key (strftime_key s).
Proof.
  intros Hwf Hk. rewrite current_slot_eq by done. simpl. intros [= <- <-].
  unfold strftime_key, slot_stamp; simpl. split; [done|].
  destruct Hwf as (Hh & Hm & _).
  pose proof (floor_minute_range (minute n) k Hm Hk). lia.
Qed.

(** What one turn of the loop calls: nothing, leaving the last prompted
    key as it is, or [prompt_once] once, for a slot that is not the last
    one prompted and that becomes it. *)
Lemma turn_calls cfg slot_minutes st o calls r :
  0 < slot_minutes -> wf_datetime (slot_now o) ->
  loop_body cfg slot_minutes st o = (calls, r) ->
  (calls = [] /\
   forall st', r = Ok st' -> last_slot_key_prompted st' = last_slot_key_prompted st)
  \/
  (exists a, calls = [a] /\
     key_minutes (att_key a) = slot_stamp slot_minutes (slot_now o) /\
     valid_key (att_key a) /\
     Some (att_key a) ≠ last_slot_key_prompted st /\
     forall st', r = Ok st' -> last_slot_key_prompted st' = Some (att_key a)).
Proof.
  intros Hk Hwf. unfold loop_body.
  destruct (within_work_window cfg (now o)) as [[]|];
    [|intros [= <- <-]; left; split; [done|by intros ? [= <-]]
     |intros [= <- <-]; left; split; [done|by intros ? [= <-]]].
  destruct (current_slot (slot_now o) slot_minutes) as [[s e]|] eqn:Hslot;
    [|intros [= <- <-]; left; split; [done|by intros ? [= <-]]].
  destruct (current_slot_key _ _ _ _ Hwf Hk Hslot) as [Hkey Hvalid].
  destruct (boundary_trigger (now o) (strftime_key s) s e st)
    as [st1 calls1] eqn:Hb.
  apply boundary_trigger_spec in Hb as (_ & _ & Hb).
  destruct (resume_trigger (idle_ms o) (strftime_key s) s e st1)
    as [st2 calls2] eqn:Hr.
  apply resume_trigger_spec in Hr as (_ & _ & Hr).
  destruct Hb as [[-> ->]|(-> & Hne & Hlast1)].
  - simpl. destruct Hr as [[-> Hlast2]|(-> & _ & _ & Hne & Hlast2)].
    + simpl. intros [= <- <-]. left. split; [done|]. by intros ? [= <-].
    + simpl. right. eexists. split_and!; try done;
        destruct (prompt_raises o); simplify_eq; simpl; try done.
      by intros ? [= <-].
  - simpl. destruct (prompt_raises o).
    + intros [= <- <-]. right. eexists. split_and!; try done.
    + destruct Hr as [[-> Hlast2]|(-> & _ & _ & Hne2 & _)];
        [|by rewrite Hlast1 in Hne2].
      simpl. intros [= <- <-]. right. eexists. split_and!; try done.
      intros ? [= <-]. by rewrite Hlast2.
Qed.

(** Along a run whose clock never goes backwards the calls of
    [prompt_once] are for later and later slots. *)
Lemma run_attempts_increasing cfg slot_minutes obs st :
  0 < slot_minutes ->
  Forall (fun o => wf_datetime (slot_now o)) obs ->
  clock_monotone obs ->
  (forall k0, last_slot_key_prompted st = Some k0 ->
     valid_key k0 /\
     Forall (fun o => key_minutes k0 <= slot_stamp slot_minutes (slot_now o)) obs) ->
  StronglySorted (fun a b => key_minutes (att_key a) < key_minutes (att_key b))
    (fst (scheduler_loop cfg slot_minutes st obs)) /\
  Forall (fun a => valid_key (att_key a) /\
            forall k0, last_slot_key_prompted st = Some k0 ->
                       key_minutes k0 < key_minutes (att_key a))
    (fst (scheduler_loop cfg slot_minutes st obs)).
Proof.
  intros Hk Hwf Hmono. revert st.
  induction Hmono as [|o rest Hsorted IH Hhead]; intros st Hlast.
  { simpl. split; constructor. }
  apply Forall_cons in Hwf as [Hwfo Hwfrest].
  specialize (IH Hwfrest).
  simpl.
  destruct (loop_body cfg slot_minutes st o) as [calls r] eqn:Hbody.
  destruct (turn_calls _ _ _ _ _ _ Hk Hwfo Hbody)
    as [[-> Hsame]|(a & -> & Hkey & Hvalid & Hne & Hset)].
  - destruct r as [st'|]; [|simpl; split; constructor].
    specialize (IH st').
    destruct (scheduler_loop cfg slot_minutes st' rest) as [more r'] eqn:Hrun.
    simpl in *. rewrite (Hsame st' eq_refl) in IH.
    apply IH. intros k0 Hk0. destruct (Hlast k0 Hk0) as [Hv Hall].
    split; [done|]. by apply Forall_cons in Hall as [_ ?].
  - assert (Hgt : forall k0, last_slot_key_prompted st = Some k0 ->
                    key_minutes k0 < key_minutes (att_key a)).
    { intros k0 Hk0. destruct (Hlast k0 Hk0) as [Hv Hall].
      apply Forall_cons in Hall as [Hle _]. rewrite <- Hkey in Hle.
      destruct (Z.eq_dec (key_minutes k0) (key_minutes (att_key a)))
        as [Heq|]; [|lia].
      apply key_minutes_inj in Heq; [|done..]. congruence. }
    destruct r as [st'|];
      [|simpl; split; repeat constructor; done].
    specialize (IH st').
    destruct (scheduler_loop cfg slot_minutes st' rest) as [more r'] eqn:Hrun.
    simpl in *. rewrite (Hset st' eq_refl) in IH.
    destruct IH as [IHs IHf].
    { intros k0 [= <-]. split; [done|].
      rewrite Hkey. apply Forall_forall. intros o' Hin.
      rewrite Forall_forall in Hhead, Hwfrest.
      apply slot_stamp_mono; auto. }
    assert (Forall (fun b => key_minutes (att_key a) < key_minutes (att_key b))
              more) as Hmore.
    { eapply Forall_impl; [exact IHf|]. intros b [_ Hb]. by apply Hb. }
    split.
    + by constructor.
    + constructor; [done|].
      eapply Forall_impl; [exact IHf|]. intros b [Hvb Hb]. split; [done|].
      intros k0 Hk0. specialize (Hgt k0 Hk0). specialize (Hb _ eq_refl). lia.
Qed.

Lemma filter_none {A} (P : A -> Prop) `{!forall x, Decision (P x)}
    (l : list A) :
  Forall (fun x => ~ P x) l <-> filter P l = [].
Proof.
  induction l as [|x l IH]; [done|].
  rewrite Forall_cons, filter_cons. case_decide; [|tauto].
  split; [tauto|done].
Qed.

Lemma increasing_at_most_one (calls : list attempt) (k : slot_key) :
  StronglySorted (fun a b => key_minutes (att_key a) < key_minutes (att_key b))
    calls ->
  (length (attempts_for k calls) <= 1)%nat.
Proof.
  unfold attempts_for. induction 1 as [|a rest Hs IH Hall]; [simpl; lia|].
  rewrite filter_cons. case_decide as Ha; [|done].
  assert (filter (fun b => att_key b = k) rest = []) as ->; [|simpl; lia].
  apply filter_none. eapply Forall_impl; [exact Hall|].
  intros b Hlt Hb. simpl in Hlt. rewrite Ha, Hb in Hlt. lia.
Qed.

(** The loop starts ten seconds into the 09:00 slot with the user away and
    then runs every second of the slot with the user back: the resume
    trigger prompts for the slot at 09:00:11 and the boundary trigger never
    does. *)
Lemma resume_preempts_boundary :
  fst (main_loop default_cfg resume_first_run)
    = [mk_attempt Resume slot_0900 (monday 9 0 0) (monday 9 30 0)] /\
  length (attempts_by Boundary slot_0900
            (fst (main_loop default_cfg resume_first_run))) = 0%nat.
Proof. split; vm_compute; reflexivity. Qed.

(** C4 (amended): a turn of the loop calls [prompt_once] at most once, and
    whenever it does, from either trigger and whatever the prompt decides,
    the slot becomes the last one prompted.  Along any run whose clock
    readings do not go backwards every slot gets at most one prompt attempt
    in total: from the boundary trigger, or from a resume trigger that
    comes before the boundary trigger has fired for that slot, never from
    both. *)
Theorem at_most_one_attempt_per_slot cfg slot_minutes obs :
  slot_minutes_of cfg = Ok slot_minutes -> 0 < slot_minutes ->
  Forall (fun o => wf_datetime (slot_now o)) obs ->
  clock_monotone obs ->
  (forall k, (length (attempts_for k (fst (main_loop cfg obs))) <= 1)%nat) /\
  (forall k, attempts_by Boundary k (fst (main_loop cfg obs)) ≠ [] ->
             attempts_by Resume k (fst (main_loop cfg obs)) = []) /\
  (forall st o calls st',
     wf_datetime (slot_now o) ->
     loop_body cfg slot_minutes st o = (calls, Ok st') -> calls ≠ [] ->
     exists a, calls = [a] /\ last_slot_key_prompted st' = Some (att_key a)).
Proof.
  intros Hsm Hk Hwf Hmono. unfold main_loop. rewrite Hsm.
  destruct (run_attempts_increasing cfg slot_minutes obs sched_init Hk Hwf Hmono)
    as [Hsorted _]; [done|].
  assert (Hone := fun k => increasing_at_most_one _ k Hsorted).
  split_and!; [exact Hone| |].
  - intros k Hb.
    specialize (Hone k). revert Hb Hone. unfold attempts_by, attempts_for.
    generalize (fst (scheduler_loop cfg slot_minutes sched_init obs)).
    intros calls. induction calls as [|a rest IH]; [done|].
    rewrite !filter_cons.
    destruct (decide (att_key a = k)) as [Hak|Hak].
    + simpl. intros Hb Hlen.
      assert (filter (fun b => att_key b = k) rest = []) as Hnil
          by (apply nil_length_inv; lia).
      assert (forall t, filter (fun b => att_trigger b = t /\ att_key b = k) rest
                        = []) as Hnil'.
      { intros t. apply filter_none. apply filter_none in Hnil.
        eapply Forall_impl; [exact Hnil|]. simpl. tauto. }
      rewrite Hnil' in *. destruct (att_trigger a); repeat case_decide;
        try done; try tauto; naive_solver.
    + repeat case_decide; try tauto.
  - intros st o calls st' Hwfo Hbody Hne.
    destruct (turn_calls _ _ _ _ _ _ Hk Hwfo Hbody)
      as [[-> _]|(a & -> & _ & _ & _ & Hset)]; [done|].
    exists a. split; [done|]. by apply Hset.
Qed.

Lemma at_most_one_attempt_per_slot_witness :
  (forall k, (length (attempts_for k
                 (fst (main_loop default_cfg idle_in_prompted_slot))) <= 1)%nat) /\
  (forall k, attempts_by Boundary k
               (fst (main_loop default_cfg idle_in_prompted_slot)) ≠ [] ->
             attempts_by Resume k
               (fst (main_loop default_cfg idle_in_prompted_slot)) = []) /\
  (forall st o calls st',
     wf_datetime (slot_now o) ->
     loop_body default_cfg 30 st o = (calls, Ok st') -> calls ≠ [] ->
     exists a, calls = [a] /\ last_slot_key_prompted st' = Some (att_key a)).
Proof.
  apply (at_most_one_attempt_per_slot default_cfg 30 idle_in_prompted_slot).
  - reflexivity.
  - lia.
  - repeat constructor; simpl; lia.
  - unfold clock_monotone, idle_in_prompted_slot.
    repeat (constructor; [|repeat constructor; vm_compute; discriminate]).
    constructor.
Defined.

(** The boundary trigger looks at the seconds of the minute only: a loop
    started at 09:00:10 makes its boundary prompt for the 09:00 slot at
    09:01:00. *)
Example boundary_fires_on_any_minute :
  fst (main_loop default_cfg [tick_at 9 0 10 0; tick_at 9 1 0 0])
  = [mk_attempt Boundary slot_0900 (monday 9 0 0) (monday 9 30 0)].
Proof. reflexivity. Qed.

(** * Further properties of the program *)

(** ** WorkWindowGate *)

Lemma Zleb_iff (a b c d : Z) : (a <= b <-> c <= d) -> (a <=? b) = (c <=? d).
Proof. intros H. destruct (Z.leb_spec a b), (Z.leb_spec c d); lia. Qed.

Lemma Zltb_iff (a b c d : Z) : (a < b <-> c < d) -> (a <? b) = (c <? d).
Proof. intros H. destruct (Z.ltb_spec a b), (Z.ltb_spec c d); lia. Qed.

Lemma replace_hm (t : datetime) (h m : Z) :
  replace t (Some h) (Some m) (Some 0) (Some 0) =
  if valid_hm h m
  then Ok {| ordinal := ordinal t; hour := h; minute := m;
             second := 0; microsecond := 0 |}
  else Raise ValueError.
Proof.
  unfold replace, valid_hm. simpl.
  destruct ((0 <=? h) && (h <? 24) && (0 <=? m) && (m <? 60)); reflexivity.
Qed.

(** X1: The work-window gate on a configuration whose bounds parse: bounds
    outside 00:00..23:59 raise [ValueError]; otherwise the gate is open
    exactly from the start minute (inclusive) up to the end minute
    (exclusive) of the day of [t], so a window whose end is not after its
    start is never open. *)
Theorem within_work_window_minutes cfg ww sh sm eh em t :
  getitem cfg "work_window" = Ok ww ->
  (getitem ww "start" ≫= parse_hhmm) = Ok (sh, sm) ->
  (getitem ww "end" ≫= parse_hhmm) = Ok (eh, em) ->
  wf_datetime t ->
  within_work_window cfg t =
    (if valid_hm sh sm && valid_hm eh em
     then Ok ((sh * 60 + sm <=? minute_of_day t)
              && (minute_of_day t <? eh * 60 + em))
     else Raise ValueError) /\
  (eh * 60 + em <= sh * 60 + sm ->
   within_work_window cfg t ≠ Ok true).
Proof.
  intros Hww Hs He (Hh & Hm & Hsec & Hus).
  assert (Heq : within_work_window cfg t =
    (if valid_hm sh sm && valid_hm eh em
     then Ok ((sh * 60 + sm <=? minute_of_day t)
              && (minute_of_day t <? eh * 60 + em))
     else Raise ValueError)).
  { unfold within_work_window. rewrite Hww. simpl.
    unfold mbind, result_bind in Hs, He. unfold mbind, result_bind.
    destruct (getitem ww "start") as [vs|]; [|discriminate]. rewrite Hs.
    destruct (getitem ww "end") as [ve|]; [|discriminate]. rewrite He.
    rewrite !replace_hm.
    destruct (valid_hm sh sm) eqn:Hvs; [|reflexivity].
    destruct (valid_hm eh em) eqn:Hve; [|reflexivity].
    simpl. unfold mret, result_ret. f_equal.
    unfold valid_hm in Hvs, Hve.
    repeat (apply andb_prop in Hvs as [Hvs ?]).
    repeat (apply andb_prop in Hve as [Hve ?]).
    unfold dt_leb, dt_ltb, to_us, minute_of_day. simpl.
    f_equal.
    - apply Zleb_iff. lia.
    - apply Zltb_iff. lia. }
  split; [exact Heq|].
  intros Hinv. rewrite Heq. case_match; [|discriminate].
  intros [= Hopen]. apply andb_prop in Hopen as [H1 H2]. lia.
Qed.

Lemma within_work_window_minutes_witness :
  within_work_window default_cfg (monday 17 0 0) =
    (if valid_hm 9 0 && valid_hm 17 0
     then Ok ((9 * 60 + 0 <=? minute_of_day (monday 17 0 0))
              && (minute_of_day (monday 17 0 0) <? 17 * 60 + 0))
     else Raise ValueError) /\
  (17 * 60 + 0 <= 9 * 60 + 0 ->
   within_work_window default_cfg (monday 17 0 0) ≠ Ok true).
Proof.
  apply (within_work_window_minutes default_cfg
           (JObj {[ "start" := JStr "09:00"; "end" := JStr "17:00";
                    "slot_minutes" := JNum 30 ]}) 9 0 17 0 (monday 17 0 0));
    [reflexivity | reflexivity | reflexivity
    | unfold wf_datetime; simpl; lia].
Defined.

(** ** SlotClock, continued *)

(** X2: The slot [current_slot] returns contains the clock reading it was
    computed from, whatever the positive width. *)
Theorem current_slot_contains_now (n : datetime) (k : Z) (s e : datetime) :
  wf_datetime n -> 0 < k -> current_slot n k = Ok (s, e) ->
  to_us s <= to_us n < to_us e.
Proof.
  intros Hwf Hk. rewrite current_slot_eq by done. simpl. intros [= <- <-].
  unfold dt_add. rewrite to_us_of_us. unfold to_us, timedelta_minutes. simpl.
  destruct Hwf as (Hh & Hm & Hs & Hu).
  pose proof (floor_minute_range (minute n) k Hm Hk).
  pose proof (Z.div_mod (minute n) k ltac:(lia)).
  pose proof (Z.mod_pos_bound (minute n) k Hk).
  nia.
Qed.

Lemma current_slot_contains_now_witness :
  to_us (monday 9 0 0) <= to_us (monday 9 7 42) < to_us (monday 9 30 0).
Proof.
  apply (current_slot_contains_now (monday 9 7 42) 30);
    [unfold wf_datetime; simpl; lia | lia | reflexivity].
Defined.

Lemma dt_add_minutes_same_hour (s : datetime) (k : Z) :
  wf_datetime s -> second s = 0 -> microsecond s = 0 ->
  0 <= minute s + k < 60 ->
  dt_add s (timedelta_minutes k)
  = {| ordinal := ordinal s; hour := hour s; minute := minute s + k;
       second := 0; microsecond := 0 |}.
Proof.
  intros (Hh & Hm & _) Hs Hu Hk. unfold dt_add.
  rewrite <- (of_us_to_us {| ordinal := ordinal s; hour := hour s;
                             minute := minute s + k;
                             second := 0; microsecond := 0 |})
    by (unfold wf_datetime; simpl; lia).
  f_equal. unfold to_us, timedelta_minutes. simpl. rewrite Hs, Hu. lia.
Qed.

Lemma dt_add_minutes_next_hour (s : datetime) (k : Z) :
  wf_datetime s -> second s = 0 -> microsecond s = 0 ->
  minute s + k = 60 ->
  exists e, dt_add s (timedelta_minutes k) = e /\ wf_datetime e /\
            minute e = 0 /\ second e = 0 /\ microsecond e = 0.
Proof.
  intros (Hh & Hm & _) Hs Hu Hk. unfold dt_add.
  destruct (Z.eq_dec (hour s) 23) as [H23|H23].
  - exists {| ordinal := ordinal s + 1; hour := 0; minute := 0;
              second := 0; microsecond := 0 |}.
    split; [|unfold wf_datetime; simpl; lia].
    rewrite <- (of_us_to_us {| ordinal := ordinal s + 1; hour := 0; minute := 0;
                               second := 0; microsecond := 0 |})
      by (unfold wf_datetime; simpl; lia).
    f_equal. unfold to_us, timedelta_minutes. simpl. rewrite Hs, Hu. lia.
  - exists {| ordinal := ordinal s; hour := hour s + 1; minute := 0;
              second := 0; microsecond := 0 |}.
    split; [|unfold wf_datetime; simpl; lia].
    rewrite <- (of_us_to_us {| ordinal := ordinal s; hour := hour s + 1;
                               minute := 0; second := 0; microsecond := 0 |})
      by (unfold wf_datetime; simpl; lia).
    f_equal. unfold to_us, timedelta_minutes. simpl. rewrite Hs, Hu. lia.
Qed.

(** X3: When the width divides the hour the slots tile the day: the slot
    computed at the end of a slot starts exactly there. *)
Theorem current_slot_tiles (n : datetime) (k : Z) (s e : datetime) :
  wf_datetime n -> 0 < k -> (k | 60) ->
  current_slot n k = Ok (s, e) ->
  current_slot e k = Ok (e, dt_add e (timedelta_minutes k)).
Proof.
  intros Hwf Hk [q Hq]. rewrite current_slot_eq by done. simpl.
  intros [= <- <-].
  pose proof Hwf as (Hh & Hm & _).
  pose proof (floor_minute_range (minute n) k Hm Hk) as Hfl.
  set (m0 := minute n / k * k) in *.
  set (s := {| ordinal := ordinal n; hour := hour n; minute := m0;
               second := 0; microsecond := 0 |}).
  assert (Hwfs : wf_datetime s) by (unfold wf_datetime; simpl; lia).
  assert (Hle : m0 + k <= 60).
  { unfold m0. assert (minute n / k < q) by nia. nia. }
  destruct (Z.eq_dec (m0 + k) 60) as [H60|Hlt].
  - destruct (dt_add_minutes_next_hour s k Hwfs eq_refl eq_refl H60)
      as (e & -> & Hwfe & Hme & Hse & Hue).
    rewrite current_slot_eq by done. simpl.
    rewrite Hme, Z.div_0_l by lia. simpl.
    destruct e as [o h m sec us]. simpl in *. by subst.
  - rewrite (dt_add_minutes_same_hour s k Hwfs eq_refl eq_refl) by (simpl; lia).
    rewrite current_slot_eq by (done || unfold wf_datetime; simpl; lia).
    simpl. replace ((m0 + k) / k * k) with (m0 + k); [done|].
    unfold m0. replace (minute n / k * k + k) with ((minute n / k + 1) * k) by lia.
    rewrite Z.div_mul by lia. lia.
Qed.

Lemma current_slot_tiles_witness :
  current_slot (monday 9 30 0) 30
  = Ok (monday 9 30 0, dt_add (monday 9 30 0) (timedelta_minutes 30)).
Proof.
  apply (current_slot_tiles (monday 9 7 42) 30 (monday 9 0 0) (monday 9 30 0));
    [unfold wf_datetime; simpl; lia | lia | by exists 2 | reflexivity].
Defined.

(** With a width that does not divide the hour the slots overlap: at 09:50
    the 45-minute slot runs to 10:30, and at 10:00 the next one starts. *)
Example slots_of_45_overlap :
  current_slot (monday 9 50 0) 45 = Ok (monday 9 45 0, monday 10 30 0) /\
  current_slot (monday 10 0 0) 45 = Ok (monday 10 0 0, monday 10 45 0).
Proof. split; reflexivity. Qed.

Lemma compute_slot_fake (now : datetime) (cfg : json) (hhmm : string)
    (hh mm mins : Z) :
  wf_datetime now -> slot_minutes_of cfg = Ok mins -> 0 < mins ->
  hhmm ≠ ""%string -> parse_hhmm (JStr hhmm) = Ok (hh, mm) ->
  compute_slot_for_time now cfg (Some hhmm) false =
  if valid_hm hh mm
  then current_slot {| ordinal := ordinal now; hour := hh; minute := mm;
                       second := 0; microsecond := 0 |} mins
  else Raise ValueError.
Proof.
  intros Hwf Hmins Hpos Hne Hparse. unfold compute_slot_for_time.
  rewrite Hmins. simpl.
  unfold str_eqb. rewrite bool_decide_eq_false_2 by done.
  simpl in Hparse. rewrite Hparse. simpl.
  rewrite replace_hm. destruct (valid_hm hh mm) eqn:Hv; [|reflexivity].
  simpl.
  assert (wf_datetime {| ordinal := ordinal now; hour := hh; minute := mm;
                         second := 0; microsecond := 0 |}) as Hwft.
  { unfold valid_hm in Hv. repeat (apply andb_prop in Hv as [Hv ?]).
    unfold wf_datetime. simpl. lia. }
  rewrite current_slot_eq by done. simpl.
  destruct (Z.eqb_spec mins 0); [lia|]. simpl.
  pose proof Hwft as (_ & Hm & _). simpl in Hm.
  pose proof (floor_minute_range mm mins Hm Hpos).
  rewrite replace_in_range by (done || simpl; lia).
  reflexivity.
Qed.

(** X4: With [--at HH:MM] the slot is the one [current_slot] gives for that
    time on the day of the clock reading, whatever the time of day of the
    reading; an hour or minute out of range raises [ValueError]. *)
Theorem fake_time_slot (now : datetime) (cfg : json) (hhmm : string)
    (hh mm mins : Z) :
  wf_datetime now -> slot_minutes_of cfg = Ok mins -> 0 < mins ->
  hhmm ≠ ""%string -> parse_hhmm (JStr hhmm) = Ok (hh, mm) ->
  compute_slot_for_time now cfg (Some hhmm) false =
  if valid_hm hh mm
  then current_slot {| ordinal := ordinal now; hour := hh; minute := mm;
                       second := 0; microsecond := 0 |} mins
  else Raise ValueError.
Proof.
  intros Hwf Hmins Hpos Hne Hparse. unfold compute_slot_for_time.
  rewrite Hmins. simpl.
  unfold str_eqb. rewrite bool_decide_eq_false_2 by done.
  simpl in Hparse. rewrite Hparse. simpl.
  rewrite replace_hm. destruct (valid_hm hh mm) eqn:Hv; [|reflexivity].
  simpl.
  assert (wf_datetime {| ordinal := ordinal now; hour := hh; minute := mm;
                         second := 0; microsecond := 0 |}) as Hwft.
  { unfold valid_hm in Hv. repeat (apply andb_prop in Hv as [Hv ?]).
    unfold wf_datetime. simpl. lia. }
  rewrite current_slot_eq by done. simpl.
  destruct (Z.eqb_spec mins 0); [lia|]. simpl.
  pose proof Hwft as (_ & Hm & _). simpl in Hm.
  pose proof (floor_minute_range mm mins Hm Hpos).
  rewrite replace_in_range by (done || simpl; lia).
  reflexivity.
Qed.

Lemma fake_time_slot_witness :
  compute_slot_for_time (monday 9 7 42) default_cfg (Some "13:47"%string) false =
  if valid_hm 13 47
  then current_slot {| ordinal := ordinal (monday 9 7 42); hour := 13;
                       minute := 47; second := 0; microsecond := 0 |} 30
  else Raise ValueError.
Proof.
  apply (fake_time_slot (monday 9 7 42) default_cfg "13:47" 13 47 30);
    [unfold wf_datetime; simpl; lia | reflexivity | lia | discriminate
    | reflexivity].
Defined.

(** ** Calendar queries *)

Lemma omap_filter_ext {A B} (f : A -> option B) (P Q : A -> Prop)
    `{!forall x, Decision (P x)} `{!forall x, Decision (Q x)} (l : list A) :
  (forall x, is_Some (f x) -> (P x <-> Q x)) ->
  omap f (filter P l) = omap f (filter Q l).
Proof.
  intros Hext. induction l as [|x l IH]; [done|].
  rewrite !filter_cons.
  destruct (f x) as [y|] eqn:Hfx.
  - assert (P x <-> Q x) as Hpq by (apply Hext; by rewrite Hfx).
    destruct (decide (P x)), (decide (Q x)); try tauto;
      csimpl; rewrite ?Hfx; by rewrite ?IH.
  - destruct (decide (P x)), (decide (Q x)); csimpl; rewrite ?Hfx; done.
Qed.

Lemma omap_filter_all {A B} (f : A -> option B) (P : A -> Prop)
    `{!forall x, Decision (P x)} (l : list A) :
  (forall x, x ∈ l -> is_Some (f x) -> P x) ->
  omap f (filter P l) = omap f l.
Proof.
  induction l as [|x l IH]; intros Hall; [done|].
  rewrite filter_cons. csimpl.
  destruct (f x) as [y|] eqn:Hfx.
  - rewrite decide_True by (apply Hall; [set_solver|by rewrite Hfx]).
    csimpl. rewrite Hfx, IH; [done|]. intros z Hz. apply Hall. set_solver.
  - destruct (decide (P x)); csimpl; rewrite ?Hfx; apply IH;
      intros z Hz; apply Hall; set_solver.
Qed.

(** The events of a range, whichever filter Outlook accepted. *)
Lemma events_in_range_eq E start end_ w :
  events_in_range E start end_ w =
  if restrict_raises E (three_clause start end_)
     && restrict_raises E (two_clause start end_)
  then (Raise ComError, w)
  else (Ok (omap event_of
              (filter (fun itm => in_slot start end_ itm = true) (cal_items w))),
        w).
Proof.
  rewrite events_in_range_unfold.
  unfold restrict_range, try_except, Restrict.
  change {| start_before := ol_time_str end_; end_after := ol_time_str start;
            not_all_day := true |} with (three_clause start end_).
  change {| start_before := ol_time_str end_; end_after := ol_time_str start;
            not_all_day := false |} with (two_clause start end_).
  assert (H3 : omap event_of
                 (filter (fun itm => satisfies (three_clause start end_) itm = true)
                    (cal_items w))
               = omap event_of
                   (filter (fun itm => in_slot start end_ itm = true)
                      (cal_items w))).
  { apply omap_filter_ext. intros itm _.
    unfold satisfies, in_slot, overlaps_slot. simpl. done. }
  assert (H2 : omap event_of
                 (filter (fun itm => satisfies (two_clause start end_) itm = true)
                    (cal_items w))
               = omap event_of
                   (filter (fun itm => in_slot start end_ itm = true)
                      (cal_items w))).
  { apply omap_filter_ext. intros itm [ev Hev].
    unfold event_of in Hev. unfold satisfies, in_slot, overlaps_slot. simpl.
    destruct (AllDayEvent itm); [discriminate|]. simpl.
    by rewrite !andb_true_r. }
  destruct (restrict_raises E (three_clause start end_));
    destruct (restrict_raises E (two_clause start end_)); simpl;
    unfold mbind, M_bind, read_items, mret, M_ret, lift; simpl;
    rewrite ?H3, ?H2; reflexivity.
Qed.

(** X5: [events_in_range] reports, in calendar order, exactly the entries that
    overlap the range and are not all-day, and gives the same answer
    whether Outlook took the filter with the all-day clause or only the
    fallback; it raises only when Outlook rejects both filters.  It never
    changes the calendar. *)
Theorem events_in_range_complete E start end_ w :
  (restrict_raises E (three_clause start end_) = false \/
   restrict_raises E (two_clause start end_) = false ->
   events_in_range E start end_ w =
   (Ok (omap event_of
          (filter (fun itm => in_slot start end_ itm = true) (cal_items w))),
    w)) /\
  (restrict_raises E (three_clause start end_) = true ->
   restrict_raises E (two_clause start end_) = true ->
   events_in_range E start end_ w = (Raise ComError, w)).
Proof.
  rewrite events_in_range_eq. split.
  - intros [-> | ->]; [done|]. by rewrite andb_false_r.
  - by intros -> ->.
Qed.

Lemma rules_match_strip rules subject :
  rules_match rules (strip subject) = rules_match rules subject.
Proof.
  unfold rules_match, _is_focus_title. by rewrite strip_idem.
Qed.

(** X6: The admission query and the deletion query agree: when the admission
    rule lets the slot through, the occurrences [find_focus_occurrences]
    returns are exactly the entries behind the events the rule saw, none
    for an empty slot and the one placeholder otherwise. *)
Theorem focus_occurrences_are_the_gated_events E cfg slot_start slot_end w
    evs focus :
  events_in_range E slot_start slot_end w = (Ok evs, w) ->
  should_prompt E cfg slot_start slot_end w = (Ok true, w) ->
  find_focus_occurrences E slot_start slot_end cfg w = (Ok focus, w) ->
  omap event_of focus = evs /\ length focus = length evs.
Proof.
  intros Hev Hsp Hfocus.
  rewrite (should_prompt_unfold _ _ _ _ _ _ _ Hev) in Hsp.
  revert Hfocus. unfold find_focus_occurrences. step; unfold lift.
  destruct (getitem cfg "prompt_rules") as [rules|] eqn:Hrules; [|discriminate].
  rewrite events_in_range_unfold in Hev.
  unfold mbind, M_bind.
  destruct (restrict_range E slot_start slot_end w) as [[l|?] w1] eqn:Hr;
    [|discriminate].
  injection Hev as <- _. unfold mret, M_ret. intros [= <-].
  assert (Hall : forall itm, itm ∈ l -> is_Some (event_of itm) ->
                   is_focus_occurrence rules itm = true).
  { intros itm Hin [ev Hitm].
    assert (ev ∈ omap event_of l) as Hevin
        by (apply list_elem_of_omap; eauto).
    destruct (omap event_of l) as [|ev0 [|? ?]] eqn:Hom;
      [set_solver| |discriminate].
    assert (ev = ev0) as -> by set_solver.
    unfold mbind, result_bind in Hsp. injection Hsp as Hm.
    unfold event_of in Hitm. unfold is_focus_occurrence.
    destruct (AllDayEvent itm); [discriminate|].
    injection Hitm as <-. simpl in Hm.
    rewrite rules_match_strip in Hm. by rewrite Hm. }
  assert (Heq : omap event_of
                  (filter (fun itm => is_focus_occurrence rules itm = true) l)
                = omap event_of l) by (by apply omap_filter_all).
  split; [exact Heq|].
  rewrite <- Heq. symmetry.
  generalize (filter (fun itm => is_focus_occurrence rules itm = true) l)
    (list_elem_of_filter (fun itm => is_focus_occurrence rules itm = true) l).
  intros fl Hfl.
  assert (forall itm, itm ∈ fl -> is_Some (event_of itm)) as Hsome.
  { intros itm Hin. apply Hfl in Hin as [Hf _].
    unfold is_focus_occurrence in Hf. unfold event_of.
    destruct (AllDayEvent itm); [discriminate|]. by eexists. }
  clear -Hsome. induction fl as [|x fl IH]; [done|]. csimpl.
  destruct (Hsome x ltac:(set_solver)) as [y ->]. simpl.
  f_equal. apply IH. intros z Hz. apply Hsome. set_solver.
Qed.

Lemma focus_occurrences_are_the_gated_events_witness :
  omap event_of [focus_sprint_0900] = [focus_event_0900] /\
  length [focus_sprint_0900] = length [focus_event_0900].
Proof.
  apply (focus_occurrences_are_the_gated_events quiet_env default_cfg
           (monday 9 0 0) (monday 9 30 0) (world_of [focus_sprint_0900]));
    reflexivity.
Defined.

(** ** Focus title matching *)

Lemma isspace_lower_char (c : ascii) : isspace (lower_char c) = isspace c.
Proof. destruct c as [[] [] [] [] [] [] [] []]; reflexivity. Qed.

Lemma lower_lstrip (s : string) : lower (lstrip s) = lstrip (lower s).
Proof.
  induction s as [|c s IH]; [done|]. simpl.
  rewrite isspace_lower_char. by destruct (isspace c).
Qed.

Lemma lower_rstrip (s : string) : lower (rstrip s) = rstrip (lower s).
Proof.
  induction s as [|c s IH]; [done|]. simpl.
  rewrite <- IH, isspace_lower_char.
  destruct (rstrip s); simpl; [by destruct (isspace c)|done].
Qed.

Lemma lower_strip (s : string) : lower (strip s) = strip (lower s).
Proof. unfold strip. by rewrite lower_rstrip, lower_lstrip. Qed.

Lemma lower_length (s : string) : String.length (lower s) = String.length s.
Proof. induction s as [|c s IH]; simpl; congruence. Qed.

Lemma lstrip_length (s : string) :
  (String.length (lstrip s) <= String.length s)%nat /\
  (String.length (lstrip s) = String.length s -> lstrip s = s).
Proof.
  induction s as [|c s [IHle IHeq]]; simpl; [done|].
  destruct (isspace c); simpl; [|done].
  split; [lia|]. intros Heq. lia.
Qed.

Lemma rstrip_length (s : string) :
  (String.length (rstrip s) <= String.length s)%nat /\
  (String.length (rstrip s) = String.length s -> rstrip s = s).
Proof.
  induction s as [|c s [IHle IHeq]]; simpl; [done|].
  destruct (rstrip s) as [|d t] eqn:Ht; simpl in *.
  - destruct (isspace c); simpl.
    + split; [lia|]. intros Heq. lia.
    + split; [lia|]. intros Heq. rewrite <- IHeq by lia. done.
  - split; [lia|]. intros Heq. rewrite IHeq by lia. done.
Qed.

Lemma strip_length_fixed (s : string) :
  String.length (strip s) = String.length s -> strip s = s.
Proof.
  unfold strip. intros Hlen.
  destruct (lstrip_length s) as [Hl1 Hl2].
  destruct (rstrip_length (lstrip s)) as [Hr1 Hr2].
  rewrite Hr2 by lia. apply Hl2. lia.
Qed.

(** X7: A configured focus title with leading or trailing whitespace never
    matches under the case-insensitive or the exact full-match mode: the
    subject is stripped before the comparison and the title is not. *)
Theorem padded_title_never_matches (subject ft : string) (mode : json) :
  strip ft ≠ ft -> json_is_str mode "contains_ci" = false ->
  _is_focus_title subject (JStr ft) mode = Ok false.
Proof.
  intros Hpad Hmode. unfold _is_focus_title.
  assert (truthy (JStr ft) = true) as ->.
  { simpl. unfold str_eqb. case_bool_decide as He; [|done].
    subst. by destruct Hpad. }
  rewrite Hmode. destruct (json_is_str mode "equals_ci"); simpl.
  - unfold mret, result_ret. f_equal. unfold str_eqb.
    apply bool_decide_eq_false_2. intros Heq.
    apply Hpad, strip_length_fixed.
    rewrite <- (lower_length (strip ft)), lower_strip.
    rewrite <- Heq, <- lower_strip, strip_idem, Heq.
    apply lower_length.
  - unfold mret, result_ret. f_equal. unfold str_eqb.
    apply bool_decide_eq_false_2. intros Heq.
    apply Hpad. rewrite Heq. apply strip_idem.
Qed.

Lemma padded_title_never_matches_witness :
  _is_focus_title "Focus Sprint" (JStr "Focus Sprint ") (JStr "equals_ci")
  = Ok false.
Proof.
  apply (padded_title_never_matches "Focus Sprint" "Focus Sprint "
           (JStr "equals_ci")); [discriminate | reflexivity].
Defined.

(** X8: With an empty or null focus title and the substring mode every subject
    matches, so every entry of the slot that is not all-day counts as a
    focus occurrence (and is deleted on a save). *)
Theorem empty_title_matches_everything (r : gmap string json) (v : json)
    (itm : item) :
  r !! "focus_title" = Some v -> truthy v = false ->
  r !! "focus_match" = Some (JStr "contains_ci") ->
  rules_match (JObj r) (str_or_empty (Subject itm)) = Ok true /\
  is_focus_occurrence (JObj r) itm = negb (AllDayEvent itm).
Proof.
  intros Hft Hv Hmode.
  assert (rules_match (JObj r) (str_or_empty (Subject itm)) = Ok true) as Hm.
  { unfold rules_match, get_default. simpl. rewrite Hft, Hmode. simpl.
    unfold _is_focus_title. rewrite Hv. simpl.
    by destruct (lower (strip (str_or_empty (Subject itm)))). }
  split; [done|]. unfold is_focus_occurrence. rewrite Hm.
  by destruct (AllDayEvent itm).
Qed.

Lemma empty_title_matches_everything_witness :
  rules_match (JObj {[ "focus_title" := JNull;
                       "focus_match" := JStr "contains_ci" ]})
    (str_or_empty (Subject standup_0900)) = Ok true /\
  is_focus_occurrence (JObj {[ "focus_title" := JNull;
                               "focus_match" := JStr "contains_ci" ]})
    standup_0900 = negb (AllDayEvent standup_0900).
Proof.
  apply (empty_title_matches_everything
           {[ "focus_title" := JNull; "focus_match" := JStr "contains_ci" ]}
           JNull standup_0900); reflexivity.
Defined.

(** ** The prompt and its gates *)

Lemma should_prompt_reads E cfg slot_start slot_end w r w' :
  should_prompt E cfg slot_start slot_end w = (r, w') -> w' = w.
Proof.
  unfold should_prompt. step.
  destruct (events_in_range E slot_start slot_end w) as [[evs|?] w1] eqn:Hev;
    apply events_in_range_reads in Hev as ->; [|congruence].
  destruct evs as [|ev [|? ?]]; try (unfold mret, M_ret; congruence).
  unfold mbind, M_bind, lift.
  destruct (getitem cfg "prompt_rules"); congruence.
Qed.

(** X9: Without bypass [prompt_once] touches nothing (no dialog, no calendar
    write, no state write, no sleep) unless the start of the slot lies in
    the work window and the admission rule lets the slot through. *)
Theorem prompt_once_acts_only_when_gated E cfg slot_start slot_end
    preview_only w r w' :
  prompt_once E cfg slot_start slot_end false preview_only w = (r, w') ->
  w' ≠ w ->
  within_work_window cfg slot_start = Ok true /\
  should_prompt E cfg slot_start slot_end w = (Ok true, w).
Proof.
  unfold prompt_once. step; unfold lift.
  destruct (within_work_window cfg slot_start) as [[]|]; simpl;
    [|unfold mret, M_ret; congruence|congruence].
  step.
  destruct (should_prompt E cfg slot_start slot_end w) as [[[]|] w1] eqn:Hsp;
    pose proof (should_prompt_reads _ _ _ _ _ _ _ Hsp) as ->; simpl;
    [done|unfold mret, M_ret; congruence|congruence].
Qed.

Lemma prompt_once_acts_only_when_gated_witness :
  within_work_window default_cfg (monday 9 0 0) = Ok true /\
  should_prompt quiet_env default_cfg (monday 9 0 0) (monday 9 30 0)
    (world_of [focus_sprint_0900])
  = (Ok true, world_of [focus_sprint_0900]).
Proof.
  apply (prompt_once_acts_only_when_gated quiet_env default_cfg
           (monday 9 0 0) (monday 9 30 0) false (world_of [focus_sprint_0900])
           (fst (prompt_once quiet_env default_cfg (monday 9 0 0) (monday 9 30 0)
                   false false (world_of [focus_sprint_0900])))
           (snd (prompt_once quiet_env default_cfg (monday 9 0 0) (monday 9 30 0)
                   false false (world_of [focus_sprint_0900]))));
    [reflexivity | discriminate].
Defined.

(** The work window is tested at the start of the slot, not at the clock
    reading: with a window that opens at 09:15 the slot 09:00-09:30 is
    refused, although 09:20 lies inside the window. *)
Example window_is_tested_at_slot_start :
  within_work_window (JObj (<["work_window" :=
      JObj {[ "start" := JStr "09:15"; "end" := JStr "17:00";
              "slot_minutes" := JNum 30 ]}]> DEFAULTS)) (monday 9 20 0)
  = Ok true /\
  prompt_once quiet_env (JObj (<["work_window" :=
      JObj {[ "start" := JStr "09:15"; "end" := JStr "17:00";
              "slot_minutes" := JNum 30 ]}]> DEFAULTS))
    (monday 9 0 0) (monday 9 30 0) false false (world_of [])
  = (Ok tt, world_of []).
Proof. split; reflexivity. Qed.

(** ** The dialog *)

(** X10: A save that leaves the dialog carries a stripped, non-empty text and a
    stripped, non-empty timecode, so the committer's own test of them
    always passes: an empty text or timecode never reaches it. *)
Theorem dialog_save_is_validated (actions : list ui_action)
    (text category timecode : string) :
  run_dialog actions = Some (Save text category timecode) ->
  strip text = text /\ text ≠ ""%string /\
  strip timecode = timecode /\ timecode ≠ ""%string /\
  nonempty (strip text) && nonempty (strip timecode) = true.
Proof.
  induction actions as [|a rest IH]; [discriminate|].
  destruct a as [t tc cat| | | |]; simpl; try discriminate.
  destruct (nonempty (strip t)) eqn:Ht; simpl; [|exact IH].
  destruct (nonempty (strip tc)) eqn:Htc; simpl; [|exact IH].
  intros [= <- <- <-].
  rewrite !strip_idem, Ht, Htc.
  unfold nonempty, str_eqb in Ht, Htc.
  apply negb_true_iff, bool_decide_eq_false in Ht.
  apply negb_true_iff, bool_decide_eq_false in Htc.
  done.
Qed.

Lemma dialog_save_is_validated_witness :
  strip "write report" = "write report"%string /\
  "write report"%string ≠ ""%string /\
  strip "TC-1" = "TC-1"%string /\ "TC-1"%string ≠ ""%string /\
  nonempty (strip "write report") && nonempty (strip "TC-1") = true.
Proof.
  apply (dialog_save_is_validated
           [ClickSave "  " "TC-1" "Dev"; ClickSave " write report " "" "Dev";
            ClickSave " write report " " TC-1 " "Dev"; ClickSkip]
           "write report" "Dev" "TC-1").
  reflexivity.
Defined.

(** ** Configuration, continued *)

(** What every configuration [_merge_defaults] returns looks like. *)
Lemma merge_defaults_shape (over cfg : json) :
  _merge_defaults over = Ok cfg ->
  exists c o, cfg = JObj c /\ c ∪ DEFAULTS = c /\
    is_Some (c !! "categories") /\
    c !! "outlook" = Some (JObj o) /\ is_Some (o !! "tz_id").
Proof.
  unfold _merge_defaults.
  destruct (items (if truthy over then over else JObj ∅)) as [m|]; [|discriminate].
  simpl. rewrite merge_fold.
  set (c0 := m ∪ DEFAULTS).
  assert (Hc0 : c0 ∪ DEFAULTS = c0).
  { unfold c0. by rewrite <- (assoc_L (∪)), (idemp_L (∪)). }
  assert (Hcat : is_Some (c0 !! "categories")).
  { destruct (c0 !! "categories") eqn:Hc; [by eexists|].
    unfold c0 in Hc. apply lookup_union_None in Hc as [_ Hc].
    by vm_compute in Hc. }
  destruct Hcat as [vc Hvc]. rewrite Hvc.
  destruct (c0 !! "outlook") as [[| | | | |o]|] eqn:Ho; try discriminate.
  - destruct (o !! "tz_id") eqn:Htz; intros [= <-].
    + exists c0, o. split_and!; try done; by eexists.
    + eexists _, _. split; [reflexivity|]. split_and!.
      * by rewrite <- insert_union_l, Hc0.
      * rewrite lookup_insert_ne by done. by eexists.
      * by rewrite lookup_insert_eq.
      * rewrite lookup_insert_eq. by eexists.
  - intros [= <-]. eexists _, _. split; [reflexivity|]. split_and!.
    + by rewrite <- insert_union_l, Hc0.
    + rewrite lookup_insert_ne by done. by eexists.
    + by rewrite lookup_insert_eq.
    + rewrite lookup_singleton_eq. by eexists.
Qed.

(** X12: Merging the defaults is idempotent: a configuration that
    [_merge_defaults] returned is returned unchanged when merged again. *)
Theorem merge_defaults_idempotent (over cfg : json) :
  _merge_defaults over = Ok cfg -> _merge_defaults cfg = Ok cfg.
Proof.
  intros Hm.
  destruct (merge_defaults_shape _ _ Hm)
    as (c & o & -> & Hc & [vc Hcat] & Hout & [vt Htz]).
  unfold _merge_defaults.
  assert (truthy (JObj c) = true) as ->.
  { simpl. rewrite bool_decide_eq_false_2; [done|].
    intros ->. by rewrite lookup_empty in Hout. }
  simpl. rewrite merge_fold, Hc, Hcat, Hout, Htz. reflexivity.
Qed.

Lemma merge_defaults_idempotent_witness :
  _merge_defaults early_start_cfg = Ok early_start_cfg.
Proof.
  apply (merge_defaults_idempotent (JObj early_start_over) early_start_cfg).
  reflexivity.
Defined.

(** X13: The order of the candidate files: a [--config] file that parses to a
    truthy value is the one merged; a [--config] file that is absent,
    unparseable or holds a falsy value (an empty object, [null]) is passed
    over as if no path had been given; next comes the file beside the
    script. *)
Theorem load_config_precedence (fs : filesystem) (here cwd : string) :
  (forall p v, p ≠ ""%string -> fs p = Some (Parsed v) -> truthy v = true ->
     load_config fs here cwd (Some p) = _merge_defaults v) /\
  (forall p, fs p = None \/ fs p = Some Unparseable \/
             (exists v, fs p = Some (Parsed v) /\ truthy v = false) ->
     load_config fs here cwd (Some p) = load_config fs here cwd None) /\
  (forall v, fs here = Some (Parsed v) -> truthy v = true ->
     load_config fs here cwd None = _merge_defaults v).
Proof.
  split_and!.
  - intros p v Hp Hfs Hv. unfold load_config, _try_load_json, str_eqb.
    rewrite bool_decide_eq_false_2 by done. rewrite Hfs. simpl. by rewrite Hv.
  - intros p Hfs. unfold load_config at 1.
    destruct (str_eqb p ""); [reflexivity|].
    assert (loaded (fst (_try_load_json fs p)) = None) as ->; [|reflexivity].
    unfold _try_load_json.
    destruct Hfs as [-> |[-> |(v & -> & Hv)]]; simpl; [done..|by rewrite Hv].
  - intros v Hfs Hv. unfold load_config, _try_load_json.
    rewrite Hfs. simpl. by rewrite Hv.
Qed.

(** An empty object given with [--config] is passed over and the file in
    the working directory is loaded instead. *)
Example empty_config_is_passed_over :
  load_config
    (fun p => if str_eqb p "mine.json" then Some (Parsed (JObj ∅))
              else if str_eqb p "config.json"
                   then Some (Parsed (JObj early_start_over))
              else None)
    "app/config.json" "config.json" (Some "mine.json"%string)
  = Ok early_start_cfg.
Proof. reflexivity. Qed.

(** ** SchedulerLoop, continued *)

Lemma loop_body_provenance cfg slot_minutes st o calls r a :
  loop_body cfg slot_minutes st o = (calls, r) -> a ∈ calls ->
  within_work_window cfg (now o) = Ok true /\
  current_slot (slot_now o) slot_minutes = Ok (att_start a, att_end a) /\
  att_key a = strftime_key (att_start a) /\
  match att_trigger a with
  | Boundary => second (now o) < 5
  | Resume => idle_ms o <= IDLE_THRESHOLD_SEC * 1000
  end.
Proof.
  unfold loop_body.
  destruct (within_work_window cfg (now o)) as [[]|];
    [|intros [= <- _]; set_solver|intros [= <- _]; set_solver].
  destruct (current_slot (slot_now o) slot_minutes) as [[s e]|];
    [|intros [= <- _]; set_solver].
  assert (Hb : forall b, b ∈ (boundary_trigger (now o) (strftime_key s) s e st).2 ->
            b = mk_attempt Boundary (strftime_key s) s e /\ second (now o) < 5).
  { intros b. unfold boundary_trigger.
    destruct (bool_decide _ && (second (now o) <? 5)) eqn:Hc; simpl;
      [|set_solver].
    apply andb_prop in Hc as [_ Hc]. apply Z.ltb_lt in Hc. set_solver. }
  assert (Hr : forall st1 b,
            b ∈ (resume_trigger (idle_ms o) (strftime_key s) s e st1).2 ->
            b = mk_attempt Resume (strftime_key s) s e /\
            idle_ms o <= IDLE_THRESHOLD_SEC * 1000).
  { intros st1 b. unfold resume_trigger.
    destruct (Z.gtb_spec (idle_ms o) (IDLE_THRESHOLD_SEC * 1000)); simpl;
      [set_solver|].
    destruct (was_idle st1); [|set_solver].
    case_bool_decide; simpl; set_solver. }
  destruct (boundary_trigger (now o) (strftime_key s) s e st)
    as [st1 calls1]. simpl in Hb.
  specialize (Hr st1).
  destruct (resume_trigger (idle_ms o) (strftime_key s) s e st1)
    as [st2 calls2]. simpl in Hr.
  assert (a ∈ calls1 ++ calls2 ->
          Ok true = Ok true /\
          Ok (s, e) = Ok (att_start a, att_end a) /\
          att_key a = strftime_key (att_start a) /\
          match att_trigger a with
          | Boundary => second (now o) < 5
          | Resume => idle_ms o <= IDLE_THRESHOLD_SEC * 1000
          end) as Hall.
  { intros Hin. apply elem_of_app in Hin as [Hin|Hin].
    - destruct (Hb a Hin) as [-> ?]. done.
    - destruct (Hr a Hin) as [-> ?]. done. }
  destruct (any_call calls1 && prompt_raises o).
  { intros [= <- _] Hin. apply Hall. set_solver. }
  destruct (any_call calls2 && prompt_raises o); intros [= <- _]; exact Hall.
Qed.

(** X15: Every call of [prompt_once] the loop makes is made on a turn inside the
    work window and is for the slot of that turn's clock reading; a
    boundary call is made in the first five seconds of a minute, a resume
    call on a sample at or below the idle threshold. *)
Theorem attempts_are_for_current_slots cfg slot_minutes st obs a :
  a ∈ fst (scheduler_loop cfg slot_minutes st obs) ->
  exists o, o ∈ obs /\
    within_work_window cfg (now o) = Ok true /\
    current_slot (slot_now o) slot_minutes = Ok (att_start a, att_end a) /\
    att_key a = strftime_key (att_start a) /\
    match att_trigger a with
    | Boundary => second (now o) < 5
    | Resume => idle_ms o <= IDLE_THRESHOLD_SEC * 1000
    end.
Proof.
  revert st. induction obs as [|o rest IH]; intros st; [set_solver|].
  simpl.
  destruct (loop_body cfg slot_minutes st o) as [calls r] eqn:Hbody.
  assert (Hhere : a ∈ calls -> exists o', o' ∈ o :: rest /\
            within_work_window cfg (now o') = Ok true /\
            current_slot (slot_now o') slot_minutes
              = Ok (att_start a, att_end a) /\
            att_key a = strftime_key (att_start a) /\
            match att_trigger a with
            | Boundary => second (now o') < 5
            | Resume => idle_ms o' <= IDLE_THRESHOLD_SEC * 1000
            end).
  { intros Hin. exists o. split; [set_solver|].
    by eapply loop_body_provenance. }
  destruct r as [st'|]; [|exact Hhere].
  specialize (IH st').
  destruct (scheduler_loop cfg slot_minutes st' rest) as [more r'].
  simpl in *. intros Hin. apply elem_of_app in Hin as [Hin|Hin].
  - by apply Hhere.
  - destruct (IH Hin) as (o' & Ho' & Hrest). exists o'. split; [set_solver|done].
Qed.

Lemma attempts_are_for_current_slots_witness :
  exists o, o ∈ idle_in_prompted_slot /\
    within_work_window default_cfg (now o) = Ok true /\
    current_slot (slot_now o) 30 = Ok (monday 9 0 0, monday 9 30 0) /\
    slot_0900 = strftime_key (monday 9 0 0) /\
    second (now o) < 5.
Proof.
  apply (attempts_are_for_current_slots default_cfg 30 sched_init
           idle_in_prompted_slot
           (mk_attempt Boundary slot_0900 (monday 9 0 0) (monday 9 30 0))).
  vm_compute. left.
Defined.

(** ** Displayed times *)

Lemma reads_back_all :
  forallb (fun h => forallb (fun m => reads_back h m) (seq 0 60)) (seq 0 24)
  = true.
Proof. vm_compute. reflexivity. Qed.

(** [parse_hhmm] reads back the hour and minute of a time printed as
    [%H:%M]. *)
Lemma parse_hhmm_strftime (d : datetime) :
  wf_datetime d ->
  parse_hhmm (JStr (strftime_HM d)) = Ok (hour d, minute d).
Proof.
  intros (Hh & Hm & _).
  pose proof reads_back_all as Hall.
  rewrite forallb_forall in Hall.
  specialize (Hall (Z.to_nat (hour d))).
  rewrite forallb_forall in Hall.
  assert (reads_back (Z.to_nat (hour d)) (Z.to_nat (minute d)) = true) as Hrb.
  { apply Hall; apply in_seq; lia. }
  unfold reads_back in Hrb. rewrite !Z2Nat.id in Hrb by lia.
  unfold strftime_HM.
  destruct (parse_hhmm _) as [[h' m']|]; [|discriminate].
  apply andb_prop in Hrb as [H1 H2].
  apply Z.eqb_eq in H1, H2. by subst.
Qed.

(** X16: The start time the dialog shows for a slot, given back with [--at] on
    the same day, reproduces the slot. *)
Theorem displayed_start_reproduces_slot (n now : datetime) (cfg : json)
    (k : Z) (s e : datetime) :
  wf_datetime n -> wf_datetime now -> 0 < k ->
  slot_minutes_of cfg = Ok k ->
  current_slot n k = Ok (s, e) -> ordinal now = ordinal n ->
  compute_slot_for_time now cfg (Some (strftime_HM s)) false = Ok (s, e).
Proof.
  intros Hwfn Hwfnow Hk Hmins Hslot Hday.
  rewrite current_slot_eq in Hslot by done. simpl in Hslot.
  injection Hslot as <- <-.
  pose proof Hwfn as (Hh & Hm & _).
  pose proof (floor_minute_range (minute n) k Hm Hk) as Hfl.
  set (s := {| ordinal := ordinal n; hour := hour n;
               minute := minute n / k * k; second := 0; microsecond := 0 |}).
  assert (Hwfs : wf_datetime s) by (unfold wf_datetime; simpl; lia).
  assert (Hne : strftime_HM s ≠ ""%string) by (unfold strftime_HM; discriminate).
  rewrite (compute_slot_fake now cfg (strftime_HM s) (hour s) (minute s) k
             Hwfnow Hmins Hk Hne (parse_hhmm_strftime s Hwfs)).
  assert (valid_hm (hour s) (minute s) = true) as ->.
  { unfold valid_hm. simpl.
    repeat (apply andb_true_intro; split); lia. }
  rewrite Hday.
  change {| ordinal := ordinal n; hour := hour s; minute := minute s;
            second := 0; microsecond := 0 |} with s.
  rewrite current_slot_eq by done. simpl.
  rewrite Z.div_mul by lia. reflexivity.
Qed.

Lemma displayed_start_reproduces_slot_witness :
  compute_slot_for_time (monday 16 45 10) default_cfg
    (Some (strftime_HM (monday 9 0 0))) false
  = Ok (monday 9 0 0, monday 9 30 0).
Proof.
  apply (displayed_start_reproduces_slot (monday 9 7 42) (monday 16 45 10)
           default_cfg 30 (monday 9 0 0) (monday 9 30 0));
    try reflexivity; try (unfold wf_datetime; simpl; lia).
Defined.

(** ** A focus title that is not a string *)

(** X17: A truthy focus title that is not a string (a number, a list) makes the
    case-insensitive modes raise [AttributeError].  The admission rule lets
    that escape when the slot holds exactly one event; the deletion query
    swallows it and finds no occurrence. *)
Theorem non_string_title (r : gmap string json) (v : json) :
  r !! "focus_title" = Some v -> truthy v = true ->
  (forall s, v ≠ JStr s) ->
  r !! "focus_match" = None \/ r !! "focus_match" = Some (JStr "equals_ci")
    \/ r !! "focus_match" = Some (JStr "contains_ci") ->
  (forall subject, rules_match (JObj r) subject = Raise AttributeError) /\
  (forall itm, is_focus_occurrence (JObj r) itm = false) /\
  (forall E cfg slot_start slot_end w ev,
     getitem cfg "prompt_rules" = Ok (JObj r) ->
     events_in_range E slot_start slot_end w = (Ok [ev], w) ->
     should_prompt E cfg slot_start slot_end w = (Raise AttributeError, w)).
Proof.
  intros Hft Hv Hns Hmode.
  assert (Hraise : forall subject,
            rules_match (JObj r) subject = Raise AttributeError).
  { intros subject. unfold rules_match, get_default. simpl. rewrite Hft.
    simpl. unfold _is_focus_title. rewrite Hv.
    assert (json_lower v = Raise AttributeError) as Hlow.
    { destruct v; try reflexivity. by destruct (Hns s). }
    destruct Hmode as [-> |[-> | ->]]; simpl; by rewrite Hlow. }
  split_and!; [exact Hraise| |].
  - intros itm. unfold is_focus_occurrence. rewrite Hraise.
    by destruct (AllDayEvent itm).
  - intros E cfg slot_start slot_end w ev Hrules Hev.
    rewrite (should_prompt_unfold _ _ _ _ _ _ _ Hev), Hrules. simpl.
    by rewrite Hraise.
Qed.

Lemma non_string_title_witness :
  (forall subject,
     rules_match (JObj {[ "focus_title" := JNum 5 ]}) subject
     = Raise AttributeError) /\
  (forall itm, is_focus_occurrence (JObj {[ "focus_title" := JNum 5 ]}) itm
               = false) /\
  (forall E cfg slot_start slot_end w ev,
     getitem cfg "prompt_rules" = Ok (JObj {[ "focus_title" := JNum 5 ]}) ->
     events_in_range E slot_start slot_end w = (Ok [ev], w) ->
     should_prompt E cfg slot_start slot_end w = (Raise AttributeError, w)).
Proof.
  apply (non_string_title {[ "focus_title" := JNum 5 ]} (JNum 5));
    [reflexivity | reflexivity | discriminate | by left].
Defined.

(** ** Preview *)

(** X18: With [--preview-only] the calendar part of a save never creates an
    entry: after the deletions it logs the would-be entry with its local
    and UTC bounds, and every entry of the calendar afterwards was there
    before. *)
Theorem preview_commit_never_creates E cfg slot_start slot_end subj oc focus w :
  find_focus_occurrences E slot_start slot_end cfg w = (Ok focus, w) ->
  exists w1,
    commit E cfg slot_start slot_end true subj oc w = (Ok tt, w1) /\
    trace w1 = trace w ++ map (delete_effect E) focus ++
      [EPreview subj (categories_of oc)
         {| wall := slot_start; tzinfo := host E (now_start E) |}
         {| wall := slot_end; tzinfo := host E (now_end E) |}
         (_to_utc_from_local_wall (host E) (now_start E) slot_start)
         (_to_utc_from_local_wall (host E) (now_end E) slot_end)] /\
    (forall itm, itm ∈ cal_items w1 -> itm ∈ cal_items w).
Proof.
  intros Hfocus.
  destruct (delete_all_spec E focus w)
    as (wd & Hrun & Htr & Hse & Hst & Hsf & Hit).
  unfold commit. step. rewrite Hfocus.
  step. rewrite Hrun.
  unfold _preview_log, _local_and_utc, emit. simpl.
  eexists. split; [reflexivity|]. simpl.
  rewrite Htr, <- app_assoc. split; [done|].
  intros itm Hin. by apply Hit in Hin as [? _].
Qed.

Lemma preview_commit_never_creates_witness :
  exists w1,
    commit quiet_env default_cfg (monday 9 0 0) (monday 9 30 0) true
      "write report" JNull (world_of [focus_sprint_0900; standup_0900])
    = (Ok tt, w1) /\
    trace w1 = [] ++ map (delete_effect quiet_env) [focus_sprint_0900] ++
      [EPreview "write report" (categories_of JNull)
         {| wall := monday 9 0 0; tzinfo := host quiet_env (now_start quiet_env) |}
         {| wall := monday 9 30 0; tzinfo := host quiet_env (now_end quiet_env) |}
         (_to_utc_from_local_wall (host quiet_env) (now_start quiet_env)
            (monday 9 0 0))
         (_to_utc_from_local_wall (host quiet_env) (now_end quiet_env)
            (monday 9 30 0))] /\
    (forall itm, itm ∈ cal_items w1 ->
                 itm ∈ [focus_sprint_0900; standup_0900]).
Proof.
  apply (preview_commit_never_creates quiet_env default_cfg
           (monday 9 0 0) (monday 9 30 0) "write report" JNull
           [focus_sprint_0900] (world_of [focus_sprint_0900; standup_0900])).
  reflexivity.
Defined.
